(** * build_engine.py: the graph-surgery pipeline of the SSD engine builder

    A shallow embedding of [src/ssd/build_engine.py].  The script loads a
    frozen SSD detector, rewrites its graph with graphsurgeon
    ([add_plugin]), exports it to UFF and builds a TensorRT engine
    ([main]).  The functions of the script are embedded statement by
    statement over a small exception-and-state monad, because the script
    mutates one graph object in place and may raise in the middle.

    graphsurgeon itself is not part of the repository; the operations the
    script calls are collected in [Module gs], each one modelled from the
    specification of the repository. *)

From Stdlib Require Import String Ascii List ZArith QArith Bool Arith Lia.
From Stdlib Require Import NArith Permutation FinFun.
Import ListNotations.

Local Open Scope string_scope.
Local Open Scope list_scope.
Local Open Scope nat_scope.

(** ** Python lists *)

Module py.

(** [x in l] for a list of strings. *)
Definition contains (x : string) (l : list string) : bool :=
  existsb (String.eqb x) l.

(** [l.remove(x)]: drops the first occurrence of [x]; [None] stands for the
    [ValueError] Python raises when [x] is not in [l]. *)
Fixpoint list_remove (x : string) (l : list string) : option (list string) :=
  match l with
  | [] => None
  | y :: r =>
      if String.eqb y x then Some r
      else option_map (cons y) (list_remove x r)
  end.

(** [l.insert(0, x)]. *)
Definition insert0 (x : string) (l : list string) : list string := x :: l.

(** In-place update of the element at position [i]; positions are the
    references to node objects held by the graph. *)
Fixpoint update_nth {A : Type} (i : nat) (f : A -> A) (l : list A)
  {struct l} : list A :=
  match l, i with
  | [], _ => []
  | x :: r, O => f x :: r
  | x :: r, S j => x :: update_nth j f r
  end.

(** The positions, counted from [i], of the elements satisfying [p]. *)
Fixpoint positions_from {A : Type} (p : A -> bool) (i : nat) (l : list A)
  : list nat :=
  match l with
  | [] => []
  | x :: r =>
      if p x then i :: positions_from p (S i) r
      else positions_from p (S i) r
  end.

Definition positions {A : Type} (p : A -> bool) (l : list A) : list nat :=
  positions_from p 0 l.

(** The elements of [l] at the positions [refs]. *)
Definition deref_all {A : Type} (l : list A) (refs : list nat) : list A :=
  flat_map (fun i => match nth_error l i with Some x => [x] | None => [] end)
           refs.

End py.

(** ** Attribute values of a node

    Python numbers passed as keyword arguments.  A float literal of the
    script is kept as the exact decimal it is written as. *)

Inductive Value : Type :=
| VInt (z : Z)
| VFloat (q : Q)
| VIntList (l : list Z)
| VFloatList (l : list Q)
| VTuple (l : list Z)
| VArray (dtype : string) (data : list Q).

(** ** graphsurgeon *)

Module gs.

(** Modelled from the spec: the node type of graphsurgeon is not in the
    repository.  Section 3: a node has a name, an operator kind, an ordered
    list of input references ([producer] or [producer:k]; [^producer] is a
    control edge) and keyword attributes, kept here in the order they were
    given; [trt_plugin] tells whether the node was made by
    [create_plugin_node]. *)
Record NodeDef : Type := mkNode {
  name : string;
  op : string;
  input : list string;
  attr : list (string * Value);
  trt_plugin : bool
}.

(** [node.op = o] and [node.input[:] = l]. *)
Definition set_op (o : string) (n : NodeDef) : NodeDef :=
  mkNode (name n) o (input n) (attr n) (trt_plugin n).

Definition set_input (l : list string) (n : NodeDef) : NodeDef :=
  mkNode (name n) (op n) l (attr n) (trt_plugin n).

(** Modelled from the spec: [gs.create_node(name, op, **kwargs)] is not in
    the repository.  It builds a node with no inputs that carries the keyword
    arguments as attributes (section 4.5: the replacement nodes are inert
    data until they are wired in). *)
Definition create_node (nm o : string) (kwargs : list (string * Value))
  : NodeDef :=
  mkNode nm o [] kwargs false.

(** Modelled from the spec: [gs.create_plugin_node(name, op, **kwargs)] is
    not in the repository.  Same as [create_node], for a node whose
    semantics the target compiler supplies (glossary, plugin node). *)
Definition create_plugin_node (nm o : string) (kwargs : list (string * Value))
  : NodeDef :=
  mkNode nm o [] kwargs true.

(** Modelled from the spec: the graph type of graphsurgeon is not in the
    repository.  Section 3: the graph owns its nodes, in insertion order, and
    an ordered sequence of output node references; a reference to a node
    object is its position in the node list. *)
Record DynamicGraph : Type := mkGraph {
  node : list NodeDef;
  graph_outputs : list nat
}.

(** Modelled from the spec: section 3, the producer an input reference
    points to is the reference without its control marker and its output
    index. *)
Fixpoint before_colon (s : string) : string :=
  match s with
  | EmptyString => EmptyString
  | String c r =>
      if Ascii.eqb c ":" then EmptyString else String c (before_colon r)
  end.

Definition strip_control (r : string) : string :=
  match r with
  | String c r' => if Ascii.eqb c "^" then r' else r
  | EmptyString => r
  end.

Definition clean_input_name (r : string) : string :=
  before_colon (strip_control r).

(** Modelled from the spec: section 4.3, a consumer of a node is a node that
    lists a reference to it. *)
Definition consumes (nm : string) (n : NodeDef) : bool :=
  existsb (fun r => String.eqb (clean_input_name r) nm) (input n).

Definition has_consumer (nodes : list NodeDef) (nm : string) : bool :=
  existsb (consumes nm) nodes.

(** Modelled from the spec: how graphsurgeon maintains [graph_outputs] is
    not in the repository.  The output set is the set of end nodes of the
    graph: a node that consumes something and that no node consumes
    (section 8 ties a node being an output to its having zero consumers).
    It is derived again after every mutating call of the graph object; the
    retry of [add_plugin] (lines 255-257), which removes every output node and
    then reads [graph_outputs] again expecting to find ['NMS'] there, relies on
    exactly this. *)
Definition is_graph_output (nodes : list NodeDef) (n : NodeDef) : bool :=
  negb (has_consumer nodes (name n)) &&
  match input n with [] => false | _ :: _ => true end.

(** Modelled from the spec: the output list derived from a node list, and
    the graph object right after a mutating call. *)
Definition find_graph_outputs (nodes : list NodeDef) : list nat :=
  py.positions (is_graph_output nodes) nodes.

Definition analyse (nodes : list NodeDef) : DynamicGraph :=
  mkGraph nodes (find_graph_outputs nodes).

(** Modelled from the spec: the graph methods take node objects or names;
    these are the node objects behind a list of references, and their
    names. *)
Definition force_to_nodes (g : DynamicGraph) (refs : list nat)
  : list NodeDef :=
  py.deref_all (node g) refs.

Definition force_to_names (g : DynamicGraph) (refs : list nat)
  : list string :=
  map name (force_to_nodes g refs).

(** Modelled from the spec: [find_nodes_by_op(kind)] (section 4.1) is not in
    the repository.  All nodes currently tagged [kind], in graph order. *)
Definition find_nodes_by_op (g : DynamicGraph) (kind : string) : list nat :=
  py.positions (fun n => String.eqb (op n) kind) (node g).

(** Modelled from the spec: [find_nodes_by_name(name)] (section 4.1, the
    exact-name half of [find_nodes_by_name_or_prefix]) is not in the
    repository.  All nodes with that name, in graph order. *)
Definition find_nodes_by_name (g : DynamicGraph) (nm : string) : list nat :=
  py.positions (fun n => String.eqb (name n) nm) (node g).

(** Modelled from the spec: section 4.6, a name lies under a namespace key
    when it equals the key or starts with [key + "/"]. *)
Definition under_namespace (key nm : string) : bool :=
  String.eqb nm key || String.prefix (key ++ "/") nm.

(** Modelled from the spec: [find_nodes_by_path(paths)] (section 4.1, the
    prefix half of [find_nodes_by_name_or_prefix]) is not in the
    repository.  All nodes under one of the given paths. *)
Definition find_nodes_by_path (g : DynamicGraph) (paths : list string)
  : list nat :=
  py.positions (fun n => existsb (fun p => under_namespace p (name n)) paths)
               (node g).

(** Modelled from the spec: [find_node_inputs_by_name(node, name)] is not in
    the repository.  The nodes called [name] among the producers of
    [node]. *)
Definition find_node_inputs_by_name (g : DynamicGraph) (n : nat)
  (nm : string) : list nat :=
  match nth_error (node g) n with
  | None => []
  | Some nd =>
      py.positions
        (fun m => String.eqb (name m) nm &&
                  py.contains (name m) (map clean_input_name (input nd)))
        (node g)
  end.

(** Modelled from the spec: [gs.update_node(node, op=kind)] is not in the
    repository.  Section 4.2: only the operator tag changes, attributes
    untouched.  The node is updated in place, so the output list kept by the
    graph object is not derived again. *)
Definition update_node (i : nat) (kind : string) (g : DynamicGraph)
  : DynamicGraph :=
  mkGraph (py.update_nth i (set_op kind) (node g)) (graph_outputs g).

(** [node.input] changed in place by [f], for the node behind reference
    [i]; as for [update_node] the graph object is not told, and its output
    list stays as it was. *)
Definition assign_input (i : nat) (f : list string -> list string)
  (g : DynamicGraph) : DynamicGraph :=
  mkGraph (py.update_nth i (fun n => set_input (f (input n)) n) (node g))
          (graph_outputs g).

(** Modelled from the spec: [append(node)] (section 4.1) is not in the
    repository.  The node goes to the end of the node list. *)
Definition append (n : NodeDef) (g : DynamicGraph) : DynamicGraph :=
  analyse (node g ++ [n]).

(** *** DeadCodeEliminator *)

(** Modelled from the spec: section 4.3, first half.  The nodes called
    [names] are removed outright and detached from every remaining input
    list. *)
Definition remove_impl (names : list string) (nodes : list NodeDef)
  : list NodeDef :=
  map (fun n =>
         set_input
           (filter (fun r => negb (py.contains (clean_input_name r) names))
                   (input n)) n)
      (filter (fun n => negb (py.contains (name n) names)) nodes).

(** Modelled from the spec: section 4.3, second half.  A node with zero
    remaining consumers that is not in the output set. *)
Definition orphan (keep : list string) (nodes : list NodeDef) (n : NodeDef)
  : bool :=
  negb (has_consumer nodes (name n)) && negb (py.contains (name n) keep).

(** Modelled from the spec: section 4.3, the scan repeated until a fixed
    point.  One scan per unit of fuel; every scan that changes the graph
    removes a node, so as many scans as there are nodes reach the fixed
    point. *)
Fixpoint sweep (fuel : nat) (keep : list string) (nodes : list NodeDef)
  : list NodeDef :=
  match fuel with
  | O => nodes
  | S fuel' =>
      match map name (filter (orphan keep nodes) nodes) with
      | [] => nodes
      | dead => sweep fuel' keep (remove_impl dead nodes)
      end
  end.

(** Modelled from the spec: [remove(nodes, remove_exclusive_dependencies)]
    is not in the repository.  Section 4.3: the requested nodes are removed
    and detached; with [cascade], nodes with zero remaining consumers that
    are not in the output set are removed until a fixed point. *)
Definition remove_names (names : list string) (cascade : bool)
  (g : DynamicGraph) : DynamicGraph :=
  let nodes1 := remove_impl names (node g) in
  analyse (if cascade
           then sweep (length nodes1)
                      (force_to_names g (graph_outputs g)) nodes1
           else nodes1).

(** Modelled from the spec: [remove] called with node objects. *)
Definition remove (refs : list nat) (cascade : bool) (g : DynamicGraph)
  : DynamicGraph :=
  remove_names (force_to_names g refs) cascade g.

(** *** PassThroughElider *)

(** Modelled from the spec: section 4.4, every occurrence of [nm] and
    [nm:k] in an input list replaced by [repl]. *)
Definition splice (nm : string) (repl ins : list string) : list string :=
  flat_map (fun r => if String.eqb (clean_input_name r) nm then repl else [r])
           ins.

(** Modelled from the spec: section 4.4 for one node, the first one called
    [nm]: its consumers are wired to what it consumes and it is removed. *)
Definition forward_one (nodes : list NodeDef) (nm : string) : list NodeDef :=
  match find (fun n => String.eqb (name n) nm) nodes with
  | None => nodes
  | Some fwd =>
      map (fun n => set_input (splice nm (input fwd) (input n)) n)
          (filter (fun n => negb (String.eqb (name n) nm)) nodes)
  end.

(** Modelled from the spec: [forward_inputs(nodes)] is not in the
    repository.  Section 4.4: for each node N of the set, every occurrence
    of [N] and [N:k] in the other input lists is replaced by what N
    consumes, then N is removed.  The script passes whatever
    [find_nodes_by_op] returned and handles no failure, so the whole input
    list of N is forwarded; for a node with exactly one input this is the
    replacement of section 4.4. *)
Definition forward_inputs (refs : list nat) (g : DynamicGraph)
  : DynamicGraph :=
  analyse (fold_left forward_one (force_to_names g refs) (node g)).

(** *** NamespaceCollapser *)

(** Modelled from the spec: section 4.6, the depth of a namespace key is the
    number of its path segments. *)
Fixpoint count_slash (s : string) : nat :=
  match s with
  | EmptyString => 0
  | String c r => (if Ascii.eqb c "/" then 1 else 0) + count_slash r
  end.

Definition depth (key : string) : nat := S (count_slash key).

(** Modelled from the spec: section 4.6, the replacement a name is
    collapsed into is that of the deepest key the name lies under, so that an
    exact-name key wins over a prefix key.  Replacement nodes are objects
    shared between keys; they are referred to by their address in the list of
    replacement nodes.  A reference is matched as it is written, output index
    included: a reference [image_tensor:0] does not lie under the key
    [image_tensor] and survives the collapse as a raw tensor name, the residue
    of section 4.6 (b). *)
Definition get_plugin_node (namespace_map : list (string * nat))
  (nm : string) : option nat :=
  option_map fst
    (fold_left
       (fun best kv =>
          if under_namespace (fst kv) nm &&
             match best with
             | None => true
             | Some b => snd b <? depth (fst kv)
             end
          then Some (snd kv, depth (fst kv))
          else best)
       namespace_map None).

(** The name of the replacement node at address [p]. *)
Definition plugin_name (plugins : list NodeDef) (p : nat) : string :=
  match nth_error plugins p with
  | Some n => name n
  | None => EmptyString
  end.

(** Modelled from the spec: section 4.6, the references of a surviving node
    that point into a collapsed namespace are rewritten to the replacement,
    once per replacement. *)
Fixpoint update_inputs (namespace_map : list (string * nat))
  (plugins : list NodeDef) (done todo : list string) : list string :=
  match todo with
  | [] => done
  | r :: rest =>
      match get_plugin_node namespace_map (strip_control r) with
      | Some p =>
          if py.contains (plugin_name plugins p) (done ++ rest)
          then update_inputs namespace_map plugins done rest
          else update_inputs namespace_map plugins
                 (done ++ [plugin_name plugins p]) rest
      | None => update_inputs namespace_map plugins (done ++ [r]) rest
      end
  end.

(** Modelled from the spec: section 4.6, an input is attached to a
    replacement node unless it is there already. *)
Definition add_input (r : string) (n : NodeDef) : NodeDef :=
  if py.contains r (input n) then n else set_input (input n ++ [r]) n.

(** Modelled from the spec: section 4.6, what a collapsed node consumed from
    outside its replacement is attached to the replacement [p], in first-seen
    order and without duplicates; a producer that is collapsed itself is
    attached as its own replacement. *)
Definition update_plugin_inputs (namespace_map : list (string * nat))
  (p : nat) (n : NodeDef) (plugins : list NodeDef) : list NodeDef :=
  fold_left
    (fun ps r =>
       match get_plugin_node namespace_map (strip_control r) with
       | Some q =>
           if String.eqb (plugin_name ps q) (plugin_name ps p) then ps
           else py.update_nth p (add_input (plugin_name ps q)) ps
       | None => py.update_nth p (add_input r) ps
       end)
    (input n) plugins.

(** Modelled from the spec: section 4.6, one pass over the node list:
    collapsed nodes feed their replacement and disappear, the others have
    their references rewritten. *)
Fixpoint collapse_nodes (namespace_map : list (string * nat))
  (nodes : list NodeDef) (plugins : list NodeDef)
  : list NodeDef * list NodeDef :=
  match nodes with
  | [] => ([], plugins)
  | n :: rest =>
      match get_plugin_node namespace_map (name n) with
      | Some p =>
          collapse_nodes namespace_map rest
            (update_plugin_inputs namespace_map p n plugins)
      | None =>
          let (kept, plugins') :=
            collapse_nodes namespace_map rest plugins in
          (set_input (update_inputs namespace_map plugins [] (input n)) n
             :: kept, plugins')
      end
  end.

(** Modelled from the spec: section 4.6, the replacement nodes of the
    mapping, each once, in first-seen order. *)
Fixpoint unique (seen refs : list nat) : list nat :=
  match refs with
  | [] => []
  | r :: rest =>
      if existsb (Nat.eqb r) seen then unique seen rest
      else r :: unique (r :: seen) rest
  end.

(** Modelled from the spec: [collapse_namespaces(namespace_map)] is not in
    the repository.  Section 4.6: every node under a key is removed, the
    references of outside consumers are rewritten to the replacement, what
    the removed nodes consumed from outside is attached to the replacement in
    first-seen order, deduplicated, and the replacement nodes join the graph,
    each once, in the order of the mapping. *)
Definition collapse_namespaces (plugins : list NodeDef)
  (namespace_map : list (string * nat)) (g : DynamicGraph) : DynamicGraph :=
  let (kept, plugins') := collapse_nodes namespace_map (node g) plugins in
  analyse (kept ++ py.deref_all plugins'
                     (unique [] (map snd namespace_map))).

End gs.

(** ** Exceptions and in-place mutation *)

(** The exceptions the script can end with: an out-of-range subscript,
    [list.remove] of an absent element, the [RuntimeError] of line 259, and
    the exit of [argparse] on a bad command line. *)
Inductive PyError : Type :=
| IndexError
| ValueError
| RuntimeError (msg : string)
| SystemExit (code : Z).

(** A statement returns a value or raises. *)
Inductive Outcome (A : Type) : Type :=
| Returned (a : A)
| Raised (e : PyError).

Arguments Returned {A} a.
Arguments Raised {A} e.

(** The passes of [add_plugin], named after the components of the design,
    with the lines of [build_engine.py] they stand for. *)
Inductive Pass : Type :=
| AssertElimination        (* 153-154 *)
| IdentityElision          (* 156-157 *)
| TensorArrayRemoval       (* 239 *)
| NamespaceCollapse        (* 241 *)
| OpRewrite (kind : string) (* 242, 243 *)
| ResidualEdgeCleanup      (* 245-248 *)
| SqueezeElision           (* 250 *)
| AnchorsRemoval           (* 251-252 *)
| AnchorInputRepair        (* 253-254 *)
| OutputValidation.        (* 255-259 *)

(** The marks left in the record of a run when a pass begins and when it
    completes. *)
Inductive Event : Type :=
| Begin (p : Pass)
| End_ (p : Pass).

(** What a run of the script acts on: the one graph object every pass
    mutates, and the record of the passes begun and completed so far. *)
Record Run : Type := mkRun {
  graph : gs.DynamicGraph;
  trace : list Event
}.

(** A Python computation: it acts on the run and returns or raises; what it
    did to the graph before raising stays done. *)
Definition Py (A : Type) : Type := Run -> Outcome A * Run.

Definition ret {A : Type} (a : A) : Py A := fun s => (Returned a, s).

Definition bind {A B : Type} (c : Py A) (k : A -> Py B) : Py B :=
  fun s =>
    match c s with
    | (Returned a, s') => k a s'
    | (Raised e, s') => (Raised e, s')
    end.

Definition raise {A : Type} (e : PyError) : Py A := fun s => (Raised e, s).

(** Reading the graph object, mutating it, and marking the record. *)
Definition read {A : Type} (f : gs.DynamicGraph -> A) : Py A :=
  fun s => (Returned (f (graph s)), s).

Definition mutate (f : gs.DynamicGraph -> gs.DynamicGraph) : Py unit :=
  fun s => (Returned tt, mkRun (f (graph s)) (trace s)).

Definition emit (e : Event) : Py unit :=
  fun s => (Returned tt, mkRun (graph s) (trace s ++ [e])).

Declare Scope py_scope.
Delimit Scope py_scope with py.
Notation "x <- c ;; k" := (bind c (fun x => k))
  (at level 61, c at next level, right associativity) : py_scope.
Notation "c ;; k" := (bind c (fun _ => k))
  (at level 61, right associativity) : py_scope.
Local Open Scope py_scope.

(** [l[0]]. *)
Definition item0 {A : Type} (l : list A) : Py A :=
  match l with
  | x :: _ => ret x
  | [] => raise IndexError
  end.

(** [for x in l: body(x)]. *)
Fixpoint for_each {A : Type} (l : list A) (body : A -> Py unit) : Py unit :=
  match l with
  | [] => ret tt
  | x :: r => body x ;; for_each r body
  end.

(** A pass: what it does, bracketed by its begin and end marks. *)
Definition step (p : Pass) (body : Py unit) : Py unit :=
  emit (Begin p) ;; body ;; emit (End_ p).

(** [node.input] for the node behind a reference. *)
Definition input_at (i : nat) (g : gs.DynamicGraph) : list string :=
  match nth_error (gs.node g) i with
  | Some n => gs.input n
  | None => []
  end.

(** [[node.name for node in graph.graph_outputs]]. *)
Definition output_names (g : gs.DynamicGraph) : list string :=
  gs.force_to_names g (gs.graph_outputs g).

(** [node.input.remove(x)] on the node behind reference [i]. *)
Definition input_remove (i : nat) (x : string) : Py unit :=
  ins <- read (input_at i) ;;
  match py.list_remove x ins with
  | Some l => mutate (gs.assign_input i (fun _ => l))
  | None => raise ValueError
  end.

(** ** The model registry *)

(** An entry of [MODEL_SPECS]: the three file paths, the class count, the
    scales of the prior boxes and the order in which the NMS plugin reads
    loc_data, conf_data and priorbox_data. *)
Record ModelSpec : Type := mkSpec {
  input_pb : string;
  tmp_uff : string;
  output_bin : string;
  num_classes : Z;
  min_size : Q;
  max_size : Q;
  input_order : list Z
}.

Section Script.

(** The directory of the script ([os.path.dirname(__file__)], taken as an
    absolute path) and the first character of [trt.__version__] are fixed
    by the installation. *)
Variable DIR_NAME : string.
Variable trt_version0 : ascii.

(** [os.path.abspath(os.path.join(dir, file))] for an absolute [dir]. *)
Definition path_join (dir file : string) : string := dir ++ "/" ++ file.

Definition LIB_FILE : string := path_join DIR_NAME "libflattenconcat.so".

Definition MODEL_SPECS : list (string * ModelSpec) :=
  [ ("ssd_mobilenet_v1_coco",
     mkSpec (path_join DIR_NAME "ssd_mobilenet_v1_coco.pb")
            (path_join DIR_NAME "ssd_mobilenet_v1_coco.uff")
            (path_join DIR_NAME "TRT_ssd_mobilenet_v1_coco.bin")
            91 0.2 0.95 [0; 2; 1]%Z);
    ("ssd_mobilenet_v1_egohands",
     mkSpec (path_join DIR_NAME "ssd_mobilenet_v1_egohands.pb")
            (path_join DIR_NAME "ssd_mobilenet_v1_egohands.uff")
            (path_join DIR_NAME "TRT_ssd_mobilenet_v1_egohands.bin")
            2 0.05 0.95 [0; 2; 1]%Z);
    ("ssd_mobilenet_v2_coco",
     mkSpec (path_join DIR_NAME "ssd_mobilenet_v2_coco.pb")
            (path_join DIR_NAME "ssd_mobilenet_v2_coco.uff")
            (path_join DIR_NAME "TRT_ssd_mobilenet_v2_coco.bin")
            91 0.2 0.95 [1; 0; 2]%Z);
    ("ssd_mobilenet_v2_egohands",
     mkSpec (path_join DIR_NAME "ssd_mobilenet_v2_egohands.pb")
            (path_join DIR_NAME "ssd_mobilenet_v2_egohands.uff")
            (path_join DIR_NAME "TRT_ssd_mobilenet_v2_egohands.bin")
            2 0.05 0.95 [0; 2; 1]%Z);
    ("ssd_inception_v2_coco",
     mkSpec (path_join DIR_NAME "ssd_inception_v2_coco.pb")
            (path_join DIR_NAME "ssd_inception_v2_coco.uff")
            (path_join DIR_NAME "TRT_ssd_inception_v2_coco.bin")
            91 0.2 0.95 [0; 2; 1]%Z);
    ("ssdlite_mobilenet_v2_coco",
     mkSpec (path_join DIR_NAME "ssdlite_mobilenet_v2_coco.pb")
            (path_join DIR_NAME "ssdlite_mobilenet_v2_coco.uff")
            (path_join DIR_NAME "TRT_ssdlite_mobilenet_v2_coco.bin")
            91 0.2 0.95 [0; 2; 1]%Z) ].

(** [MODEL_SPECS[model]]. *)
Fixpoint lookup (model : string) (table : list (string * ModelSpec))
  : option ModelSpec :=
  match table with
  | [] => None
  | (k, v) :: r => if String.eqb k model then Some v else lookup model r
  end.

Definition INPUT_DIMS : list Z := [3; 300; 300]%Z.
Definition DEBUG_UFF : bool := false.

(** ** The passes of the script *)

(** Lines 101-111. *)
Definition replace_addv2 : Py unit :=
  nodes <- read (fun g => gs.find_nodes_by_op g "AddV2") ;;
  for_each nodes (fun node => mutate (gs.update_node node "Add")).

(** Lines 114-125. *)
Definition replace_fusedbnv3 : Py unit :=
  nodes <- read (fun g => gs.find_nodes_by_op g "FusedBatchNormV3") ;;
  for_each nodes (fun node => mutate (gs.update_node node "FusedBatchNorm")).

(** Lines 128-138.  [np.array([1, 1], dtype=np.float32)]. *)
Definition anchor_input : gs.NodeDef :=
  gs.create_node "AnchorInput" "Const"
    [("value", VArray "float32" [1; 1]%Q)].

Definition add_anchor_input : Py unit :=
  mutate (gs.append anchor_input) ;;
  generators <- read (fun g => gs.find_nodes_by_op g "GridAnchor_TRT") ;;
  generator <- item0 generators ;;
  mutate (gs.assign_input generator (py.insert0 "AnchorInput")).

(** *** PluginFactory: lines 159-219 *)

Definition Input : gs.NodeDef :=
  gs.create_plugin_node "Input" "Placeholder"
    [("shape", VTuple (1%Z :: INPUT_DIMS))].

Definition PriorBox (spec : ModelSpec) : gs.NodeDef :=
  gs.create_plugin_node "MultipleGridAnchorGenerator" "GridAnchor_TRT"
    [("minSize", VFloat (min_size spec));
     ("maxSize", VFloat (max_size spec));
     ("aspectRatios", VFloatList [1.0; 2.0; 0.5; 3.0; 0.33]%Q);
     ("variance", VFloatList [0.1; 0.1; 0.2; 0.2]%Q);
     ("featureMapShapes", VIntList [19; 10; 5; 3; 2; 1]%Z);
     ("numLayers", VInt 6)].

Definition NMS (spec : ModelSpec) : gs.NodeDef :=
  gs.create_plugin_node "NMS" "NMS_TRT"
    [("shareLocation", VInt 1);
     ("varianceEncodedInTarget", VInt 0);
     ("backgroundLabelId", VInt 0);
     ("confidenceThreshold", VFloat 0.3);
     ("nmsThreshold", VFloat 0.6);
     ("topK", VInt 100);
     ("keepTopK", VInt 100);
     ("numClasses", VInt (num_classes spec));
     ("inputOrder", VIntList (input_order spec));
     ("confSigmoid", VInt 1);
     ("isNormalized", VInt 1)].

Definition concat_priorbox : gs.NodeDef :=
  gs.create_node "concat_priorbox" "ConcatV2" [("axis", VInt 2)].

(** [trt.__version__[0] >= '7'] compares one-character strings. *)
Definition trt7 : bool := Ascii.leb "7" trt_version0.

Definition concat_box_loc : gs.NodeDef :=
  if trt7
  then gs.create_plugin_node "concat_box_loc" "FlattenConcat_TRT"
         [("axis", VInt 1); ("ignoreBatch", VInt 0)]
  else gs.create_plugin_node "concat_box_loc" "FlattenConcat_TRT" [].

Definition concat_box_conf : gs.NodeDef :=
  if trt7
  then gs.create_plugin_node "concat_box_conf" "FlattenConcat_TRT"
         [("axis", VInt 1); ("ignoreBatch", VInt 0)]
  else gs.create_plugin_node "concat_box_conf" "FlattenConcat_TRT" [].

(** The replacement nodes are objects: several keys of the mapping share
    one.  They live at fixed addresses in the list [plugins]. *)
Definition plugins (spec : ModelSpec) : list gs.NodeDef :=
  [Input; PriorBox spec; NMS spec; concat_priorbox; concat_box_loc;
   concat_box_conf].

Definition at_Input : nat := 0.
Definition at_PriorBox : nat := 1.
Definition at_NMS : nat := 2.
Definition at_concat_priorbox : nat := 3.
Definition at_concat_box_loc : nat := 4.
Definition at_concat_box_conf : nat := 5.

(** Lines 221-225 (the list is not used by the script). *)
Definition namespace_for_removal : list string :=
  ["ToFloat"; "image_tensor";
   "Preprocessor/map/TensorArrayStack_1/TensorArrayGatherV3"].

(** Lines 226-237. *)
Definition namespace_plugin_map : list (string * nat) :=
  [("MultipleGridAnchorGenerator", at_PriorBox);
   ("Postprocessor", at_NMS);
   ("Preprocessor", at_Input);
   ("ToFloat", at_Input);
   ("Cast", at_Input);
   ("image_tensor", at_Input);
   ("MultipleGridAnchorGenerator/Concatenate", at_concat_priorbox);
   ("Concatenate", at_concat_priorbox);
   ("concat", at_concat_box_loc);
   ("concat_1", at_concat_box_conf)].

(** *** The statements of [add_plugin] *)

(** Lines 153-154. *)
Definition remove_asserts : Py unit :=
  all_assert_nodes <- read (fun g => gs.find_nodes_by_op g "Assert") ;;
  mutate (gs.remove all_assert_nodes true).

(** Lines 156-157. *)
Definition forward_identities : Py unit :=
  all_identity_nodes <- read (fun g => gs.find_nodes_by_op g "Identity") ;;
  mutate (gs.forward_inputs all_identity_nodes).

(** Line 239. *)
Definition remove_tensor_array : Py unit :=
  found <- read (fun g =>
    gs.find_nodes_by_path g
      ["Preprocessor/map/TensorArrayStack_1/TensorArrayGatherV3"]) ;;
  mutate (gs.remove found false).

(** Line 241. *)
Definition collapse (spec : ModelSpec) : Py unit :=
  mutate (gs.collapse_namespaces (plugins spec) namespace_plugin_map).

(** Lines 245-248. *)
Definition strip_residual_edges : Py unit :=
  found <- read (fun g => gs.find_nodes_by_name g "Input") ;;
  i <- item0 found ;;
  ins <- read (input_at i) ;;
  (if py.contains "image_tensor:0" ins
   then found' <- read (fun g => gs.find_nodes_by_name g "Input") ;;
        i' <- item0 found' ;;
        input_remove i' "image_tensor:0"
   else ret tt) ;;
  found <- read (fun g => gs.find_nodes_by_name g "NMS") ;;
  n <- item0 found ;;
  ins <- read (input_at n) ;;
  if py.contains "Input" ins
  then found' <- read (fun g => gs.find_nodes_by_name g "NMS") ;;
       n' <- item0 found' ;;
       input_remove n' "Input"
  else ret tt.

(** Line 250. *)
Definition forward_squeeze : Py unit :=
  outputs <- read gs.graph_outputs ;;
  out0 <- item0 outputs ;;
  squeezes <- read (fun g => gs.find_node_inputs_by_name g out0 "Squeeze") ;;
  mutate (gs.forward_inputs squeezes).

(** Lines 251-252. *)
Definition remove_anchors : Py unit :=
  names <- read output_names ;;
  if py.contains "anchors" names
  then mutate (gs.remove_names ["anchors"] false)
  else ret tt.

(** Lines 253-254. *)
Definition ensure_anchor_input : Py unit :=
  generators <- read (fun g => gs.find_nodes_by_op g "GridAnchor_TRT") ;;
  generator <- item0 generators ;;
  ins <- read (input_at generator) ;;
  if length ins <? 1 then add_anchor_input else ret tt.

(** Lines 255-259. *)
Definition check_outputs : Py unit :=
  names <- read output_names ;;
  if negb (py.contains "NMS" names)
  then outputs <- read gs.graph_outputs ;;
       mutate (gs.remove outputs false) ;;
       names' <- read output_names ;;
       if negb (py.contains "NMS" names')
       then raise (RuntimeError "bad graph_outputs")
       else ret tt
  else ret tt.

(** Lines 140-261. *)
Definition add_plugin (model : string) (spec : ModelSpec)
  : Py gs.DynamicGraph :=
  step AssertElimination remove_asserts ;;
  step IdentityElision forward_identities ;;
  step TensorArrayRemoval remove_tensor_array ;;
  step NamespaceCollapse (collapse spec) ;;
  step (OpRewrite "AddV2") replace_addv2 ;;
  step (OpRewrite "FusedBatchNormV3") replace_fusedbnv3 ;;
  step ResidualEdgeCleanup strip_residual_edges ;;
  step SqueezeElision forward_squeeze ;;
  step AnchorsRemoval remove_anchors ;;
  step AnchorInputRepair ensure_anchor_input ;;
  step OutputValidation check_outputs ;;
  read (fun g => g).

End Script.

(** ** The command line: lines 264-300 *)

(** The files a run leaves behind: the UFF interchange file written by
    [uff.from_tensorflow] and the serialized engine written at the end. *)
Inductive File : Type :=
| UffFile (path : string) (graphdef : list gs.NodeDef)
          (output_nodes : list string)
| EngineFile (path : string) (parsed_uff : string).

Section Main.

Variable DIR_NAME : string.
Variable trt_version0 : ascii.

(** The frozen graph stored under a path; [gs.DynamicGraph(path)] loads it
    and derives the outputs. *)
Variable frozen_graph : string -> list gs.NodeDef.

Definition load (path : string) : Run :=
  mkRun (gs.analyse (frozen_graph path)) [].

(** Lines 270-271: [if trt.__version__[0] < '7': ctypes.CDLL(LIB_FILE)], the
    libraries the script loads by hand before it builds anything. *)
Definition preload : list string :=
  if Ascii.ltb trt_version0 "7" then [LIB_FILE DIR_NAME] else [].

(** [argparse] rejects a model outside [MODEL_SPECS] and exits with status
    2.  Loading the plugin library and the TensorRT logger (lines 270-273)
    touches neither the graph nor the file system.  The exporter (line 282)
    and the engine builder (lines 288-300) are external collaborators
    (section 6 of the spec); the model records the files they write once
    [add_plugin] has returned: the UFF file for the output node NMS and the
    engine serialized from it. *)
Definition main (model : string) : Outcome unit * list File :=
  match lookup model (MODEL_SPECS DIR_NAME) with
  | None => (Raised (SystemExit 2), [])
  | Some spec =>
      match add_plugin trt_version0 model spec (load (input_pb spec)) with
      | (Raised e, _) => (Raised e, [])
      | (Returned dynamic_graph, _) =>
          (Returned tt,
           [UffFile (tmp_uff spec) (gs.node dynamic_graph) ["NMS"];
            EngineFile (output_bin spec) (tmp_uff spec)])
      end
  end.

End Main.

(** * Vocabulary of the properties *)

(** ** Reading a run *)

(** The run [s] once its graph object has become [g]. *)
Definition with_graph (g : gs.DynamicGraph) (s : Run) : Run :=
  mkRun g (trace s).

(** The value of a keyword attribute of a node. *)
Fixpoint get_attr (key : string) (kwargs : list (string * Value))
  : option Value :=
  match kwargs with
  | [] => None
  | (k, v) :: r => if String.eqb k key then Some v else get_attr key r
  end.

(** A computation is [silent] when it leaves the record of passes alone:
    only [step] writes it. *)
Definition silent {A : Type} (c : Py A) : Prop :=
  forall s, trace (snd (c s)) = trace s.

(** The graph after the corrective action of line 256: every current
    output node removed. *)
Definition retried (g : gs.DynamicGraph) : gs.DynamicGraph :=
  gs.remove (gs.graph_outputs g) false g.

(** What [if x in l: l.remove(x)] leaves of [l]. *)
Definition stripped (x : string) (l : list string) : list string :=
  if py.contains x l
  then match py.list_remove x l with Some l' => l' | None => l end
  else l.

(** One of the two statements of lines 245-248: the first node called [nm]
    loses the first occurrence of the reference [x]. *)
Definition strip_edge (nm x : string) : Py unit :=
  found <- read (fun g => gs.find_nodes_by_name g nm) ;;
  i <- item0 found ;;
  ins <- read (input_at i) ;;
  if py.contains x ins
  then found' <- read (fun g => gs.find_nodes_by_name g nm) ;;
       i' <- item0 found' ;;
       input_remove i' x
  else ret tt.

(** The loop [for i in refs: l[i] = f(l[i])]. *)
Definition apply_all {A : Type} (refs : list nat) (f : A -> A) (l : list A)
  : list A :=
  fold_left (fun acc i => py.update_nth i f acc) refs l.

(** The node list after renaming every node tagged [from] to [to]. *)
Definition renamed (from to : string) (nodes : list gs.NodeDef)
  : list gs.NodeDef :=
  map (fun n => if String.eqb (gs.op n) from then gs.set_op to n else n) nodes.

(** Name and operator kind of a node: what the passes after the collapse
    leave alone on the nodes they keep. *)
Definition tag (n : gs.NodeDef) : string * string := (gs.name n, gs.op n).



(** ** The record of passes *)

(** Equality of passes and of events, as boolean tests. *)
Definition pass_eqb (p q : Pass) : bool :=
  match p, q with
  | AssertElimination, AssertElimination
  | IdentityElision, IdentityElision
  | TensorArrayRemoval, TensorArrayRemoval
  | NamespaceCollapse, NamespaceCollapse
  | ResidualEdgeCleanup, ResidualEdgeCleanup
  | SqueezeElision, SqueezeElision
  | AnchorsRemoval, AnchorsRemoval
  | AnchorInputRepair, AnchorInputRepair
  | OutputValidation, OutputValidation => true
  | OpRewrite k, OpRewrite k' => String.eqb k k'
  | _, _ => false
  end.









(** A list of passes run one after the other, then a continuation. *)
Fixpoint sequence_then {A : Type} (l : list (Pass * Py unit)) (k : Py A)
  : Py A :=
  match l with
  | [] => k
  | (p, c) :: r => step p c ;; sequence_then r k
  end.

(** The passes of [add_plugin] as a list: [add_plugin] is this list run in
    sequence, then [return graph]. *)
Definition add_plugin_passes (v : ascii) (spec : ModelSpec)
  : list (Pass * Py unit) :=
  [(AssertElimination, remove_asserts);
   (IdentityElision, forward_identities);
   (TensorArrayRemoval, remove_tensor_array);
   (NamespaceCollapse, collapse v spec);
   (OpRewrite "AddV2", replace_addv2);
   (OpRewrite "FusedBatchNormV3", replace_fusedbnv3);
   (ResidualEdgeCleanup, strip_residual_edges);
   (SqueezeElision, forward_squeeze);
   (AnchorsRemoval, remove_anchors);
   (AnchorInputRepair, ensure_anchor_input);
   (OutputValidation, check_outputs)].

(** The passes before pass [p], and those from [p] on. *)
Fixpoint passes_before (p : Pass) (l : list (Pass * Py unit))
  : list (Pass * Py unit) :=
  match l with
  | [] => []
  | (q, c) :: r => if pass_eqb q p then [] else (q, c) :: passes_before p r
  end.

Fixpoint passes_from (p : Pass) (l : list (Pass * Py unit))
  : list (Pass * Py unit) :=
  match l with
  | [] => []
  | (q, c) :: r => if pass_eqb q p then l else passes_from p r
  end.

(** The script up to, and not including, pass [p]. *)
Definition run_until (p : Pass) (v : ascii) (spec : ModelSpec) : Py unit :=
  sequence_then (passes_before p (add_plugin_passes v spec)) (ret tt).

(** The script from pass [p] on. *)
Definition run_from (p : Pass) (v : ascii) (spec : ModelSpec)
  : Py gs.DynamicGraph :=
  sequence_then (passes_from p (add_plugin_passes v spec))
                (read (fun g => g)).

(** ** Example graphs *)

(** The model specification used in the examples: the registry entry of
    [ssd_mobilenet_v1_coco] for a script installed in [/ssd]. *)
Definition v1_coco : ModelSpec :=
  mkSpec "/ssd/ssd_mobilenet_v1_coco.pb" "/ssd/ssd_mobilenet_v1_coco.uff"
         "/ssd/TRT_ssd_mobilenet_v1_coco.bin" 91 0.2 0.95 [0; 2; 1]%Z.

(** A node of a frozen graph, attributes left out. *)
Definition nd (nm kind : string) (ins : list string) : gs.NodeDef :=
  gs.mkNode nm kind ins [] false.

(** A frozen detector in miniature: preprocessing, one feature layer, the
    two box predictors and their concatenations, the anchor generator, the
    post-processing stage and its Identity output. *)
Definition ssd_core : list gs.NodeDef :=
  [ nd "image_tensor" "Placeholder" [];
    nd "Preprocessor/sub" "Sub" ["image_tensor:0"];
    nd "FeatureExtractor/conv" "Conv2D" ["Preprocessor/sub"];
    nd "FeatureExtractor/add" "AddV2"
       ["FeatureExtractor/conv"; "FeatureExtractor/conv"];
    nd "BoxPredictor/loc" "Conv2D" ["FeatureExtractor/add"];
    nd "BoxPredictor/conf" "Conv2D" ["FeatureExtractor/add"];
    nd "concat" "ConcatV2" ["BoxPredictor/loc"];
    nd "concat_1" "ConcatV2" ["BoxPredictor/conf"];
    nd "MultipleGridAnchorGenerator/grid" "Const" [];
    nd "Concatenate/concat" "ConcatV2" ["MultipleGridAnchorGenerator/grid"];
    nd "Postprocessor/nms" "NonMaxSuppressionV3"
       ["concat"; "concat_1"; "Concatenate/concat"; "Preprocessor/sub:1"];
    nd "detection_boxes" "Identity" ["Postprocessor/nms"] ].

(** The same detector with a second end node that reads the features. *)
Definition ssd_with_summary : list gs.NodeDef :=
  ssd_core ++ [ nd "summary" "Shape" ["FeatureExtractor/add"] ].


(** The same detector with an end node called [anchors] that reads the
    concatenated prior boxes, which the post-processing reads as well. *)
Definition ssd_with_prior_anchors : list gs.NodeDef :=
  ssd_core ++ [ nd "anchors" "Reshape" ["Concatenate/concat"] ].

(** A detector whose post-processing feeds one further layer. *)
Definition ssd_with_scores : list gs.NodeDef :=
  ssd_core ++ [ nd "scores" "Mul" ["Postprocessor/nms"] ].

(** A detector whose post-processing feeds two further layers: the NMS
    node is two steps away from the end of the graph. *)
Definition ssd_with_tail : list gs.NodeDef :=
  ssd_core ++
  [ nd "scores" "Mul" ["Postprocessor/nms"; "Postprocessor/nms:1"];
    nd "result" "Pack" ["scores"] ].

(** A detector whose post-processing feeds a loop: every node is consumed
    by some node, so the graph has no end node. *)
Definition ssd_with_loop : list gs.NodeDef :=
  ssd_core ++
  [ nd "loop/Merge" "Merge" ["Postprocessor/nms"; "loop/NextIteration"];
    nd "loop/NextIteration" "NextIteration" ["loop/Merge"] ].


(** A run on a freshly loaded graph. *)
Definition fresh (nodes : list gs.NodeDef) : Run :=
  mkRun (gs.analyse nodes) [].

(** ** The files of the registry *)



(** ** What a pass keeps *)

(** What lines 245-248 never touch on a node: everything but its inputs. *)
Definition body_of (n : gs.NodeDef)
  : string * string * list (string * Value) * bool :=
  (gs.name n, gs.op n, gs.attr n, gs.trt_plugin n).

(** A computation keeps a property of the graph object, whether it returns
    or raises. *)
Definition keeps (P : gs.DynamicGraph -> Prop) {A : Type} (c : Py A) : Prop :=
  forall s, P (graph s) -> P (graph (snd (c s))).



(** Every node of the graph has its [f] (its name, its operator kind) in
    [base]. *)
Definition within {B : Type} (f : gs.NodeDef -> B) (base : list B)
  (g : gs.DynamicGraph) : Prop :=
  incl (map f (gs.node g)) base.

(** No node of the graph is tagged [kind]. *)
Definition lacks (kind : string) (g : gs.DynamicGraph) : Prop :=
  gs.find_nodes_by_op g kind = [].

(** Name, attributes and plugin flag of a node: what no pass of the script
    changes on a node it keeps. *)
Definition label (n : gs.NodeDef)
  : string * list (string * Value) * bool :=
  (gs.name n, gs.attr n, gs.trt_plugin n).

(** The nodes the script creates, lines 134-135 and 159-219, and the
    operator kinds it puts into a graph: those of the nodes it creates and
    the two tags the rewrites substitute. *)
Definition created (v : ascii) (spec : ModelSpec) : list gs.NodeDef :=
  plugins v spec ++ [anchor_input].

Definition introduced_ops : list string :=
  ["Placeholder"; "GridAnchor_TRT"; "NMS_TRT"; "ConcatV2";
   "FlattenConcat_TRT"; "Const"; "Add"; "FusedBatchNorm"].



(** * Properties *)

(** ** Laws of the monad *)

Lemma bind_returned {A B : Type} (c : Py A) (k : A -> Py B) s b s' :
  bind c k s = (Returned b, s') ->
  exists a s1, c s = (Returned a, s1) /\ k a s1 = (Returned b, s').
Proof.
  unfold bind. destruct (c s) as [[a | e] s1]; intros H.
  - exists a, s1. split; [reflexivity | exact H].
  - discriminate H.
Qed.

Lemma bind_step {A B : Type} (c : Py A) (k : A -> Py B) s a s1 :
  c s = (Returned a, s1) -> bind c k s = k a s1.
Proof. unfold bind. intros ->. reflexivity. Qed.

Lemma bind_raised {A B : Type} (c : Py A) (k : A -> Py B) s e s1 :
  c s = (Raised e, s1) -> bind c k s = (Raised e, s1).
Proof. unfold bind. intros ->. reflexivity. Qed.

Lemma silent_ret {A : Type} (a : A) : silent (ret a).
Proof. intros s. reflexivity. Qed.

Lemma silent_raise {A : Type} (e : PyError) : silent (@raise A e).
Proof. intros s. reflexivity. Qed.

Lemma silent_read {A : Type} (f : gs.DynamicGraph -> A) : silent (read f).
Proof. intros s. reflexivity. Qed.

Lemma silent_mutate f : silent (mutate f).
Proof. intros s. reflexivity. Qed.

Lemma silent_bind {A B : Type} (c : Py A) (k : A -> Py B) :
  silent c -> (forall a, silent (k a)) -> silent (bind c k).
Proof.
  intros Hc Hk s. unfold bind. specialize (Hc s).
  destruct (c s) as [[a | e] s1]; simpl in *.
  - rewrite Hk. exact Hc.
  - exact Hc.
Qed.

Lemma silent_item0 {A : Type} (l : list A) : silent (item0 l).
Proof. destruct l; [apply silent_raise | apply silent_ret]. Qed.

Lemma silent_for_each {A : Type} (l : list A) (body : A -> Py unit) :
  (forall a, silent (body a)) -> silent (for_each l body).
Proof.
  intros Hb. induction l as [| x r IH]; simpl.
  - apply silent_ret.
  - apply silent_bind; [apply Hb | intros _; exact IH].
Qed.

Lemma silent_if {A : Type} (b : bool) (c1 c2 : Py A) :
  silent c1 -> silent c2 -> silent (if b then c1 else c2).
Proof. destruct b; auto. Qed.

Lemma silent_input_remove i x : silent (input_remove i x).
Proof.
  unfold input_remove. apply silent_bind; [apply silent_read |].
  intros ins. destruct (py.list_remove x ins);
    [apply silent_mutate | apply silent_raise].
Qed.

Create HintDb silent.
#[export] Hint Resolve silent_ret silent_raise silent_read silent_mutate
  silent_item0 silent_input_remove : silent.

Ltac silence :=
  repeat first
    [ progress auto with silent
    | apply silent_bind; [| intros ?]
    | apply silent_for_each; intros ?
    | apply silent_if ].



Lemma silent_add_anchor_input : silent add_anchor_input.
Proof. unfold add_anchor_input. silence. Qed.










(** ** What each statement of [add_plugin] does to the run *)





(** *** The rename loop of the OpRewriter *)

Lemma for_each_update_node refs kind s :
  for_each refs (fun i => mutate (gs.update_node i kind)) s =
  (Returned tt,
   with_graph (gs.mkGraph (apply_all refs (gs.set_op kind)
                                     (gs.node (graph s)))
                          (gs.graph_outputs (graph s))) s).
Proof.
  revert s. induction refs as [| i r IH]; intros [[nodes outs] tr].
  - reflexivity.
  - cbn [for_each]. unfold bind at 1. cbn [mutate]. rewrite IH. reflexivity.
Qed.

Lemma positions_from_S {A : Type} (p : A -> bool) i l :
  py.positions_from p (S i) l = map S (py.positions_from p i l).
Proof.
  revert i. induction l as [| x r IH]; intros i; simpl.
  - reflexivity.
  - rewrite IH. destruct (p x); reflexivity.
Qed.

Lemma apply_all_shift {A : Type} refs (f : A -> A) x l :
  apply_all (map S refs) f (x :: l) = x :: apply_all refs f l.
Proof.
  revert l. induction refs as [| i r IH]; intros l; simpl.
  - reflexivity.
  - apply IH.
Qed.

Lemma apply_all_positions {A : Type} (p : A -> bool) (f : A -> A) l :
  apply_all (py.positions p l) f l = map (fun x => if p x then f x else x) l.
Proof.
  unfold py.positions. induction l as [| x r IH]; simpl.
  - reflexivity.
  - rewrite positions_from_S. destruct (p x); simpl.
    + fold (apply_all (map S (py.positions_from p 0 r)) f (f x :: r)).
      rewrite apply_all_shift, IH. reflexivity.
    + fold (apply_all (map S (py.positions_from p 0 r)) f (x :: r)).
      rewrite apply_all_shift, IH. reflexivity.
Qed.

Lemma replace_addv2_run s :
  replace_addv2 s =
  (Returned tt,
   with_graph (gs.mkGraph (renamed "AddV2" "Add" (gs.node (graph s)))
                          (gs.graph_outputs (graph s))) s).
Proof.
  unfold replace_addv2, bind, read. rewrite for_each_update_node.
  unfold gs.find_nodes_by_op. rewrite apply_all_positions. reflexivity.
Qed.

Lemma replace_fusedbnv3_run s :
  replace_fusedbnv3 s =
  (Returned tt,
   with_graph
     (gs.mkGraph (renamed "FusedBatchNormV3" "FusedBatchNorm"
                          (gs.node (graph s)))
                 (gs.graph_outputs (graph s))) s).
Proof.
  unfold replace_fusedbnv3, bind, read. rewrite for_each_update_node.
  unfold gs.find_nodes_by_op. rewrite apply_all_positions. reflexivity.
Qed.

Lemma positions_nil_inv {A : Type} (p : A -> bool) l :
  py.positions p l = [] -> forall x, In x l -> p x = false.
Proof.
  unfold py.positions. generalize 0.
  induction l as [| x r IH]; intros i H y Hy.
  - destruct Hy.
  - simpl in H. destruct (p x) eqn:E; [discriminate H |].
    destruct Hy as [<- | Hy]; [exact E | eapply IH; eauto].
Qed.

Lemma renamed_twice from to nodes :
  String.eqb to from = false ->
  renamed from to (renamed from to nodes) = renamed from to nodes.
Proof.
  intros Hne. unfold renamed. rewrite map_map. apply map_ext. intros n.
  destruct (String.eqb (gs.op n) from) eqn:E; simpl.
  - rewrite Hne. reflexivity.
  - rewrite E. reflexivity.
Qed.

Lemma renamed_absent from to nodes :
  (forall n, In n nodes -> String.eqb (gs.op n) from = false) ->
  renamed from to nodes = nodes.
Proof.
  intros H. unfold renamed. rewrite <- (map_id nodes) at 2.
  apply map_ext_in. intros n Hn. rewrite (H n Hn). reflexivity.
Qed.

Lemma renamed_keeps from to nodes :
  map (fun n => (gs.name n, gs.input n, gs.attr n, gs.trt_plugin n))
      (renamed from to nodes) =
  map (fun n => (gs.name n, gs.input n, gs.attr n, gs.trt_plugin n)) nodes.
Proof.
  unfold renamed. rewrite map_map. apply map_ext. intros n.
  destruct (String.eqb (gs.op n) from); reflexivity.
Qed.

(** ** OpRewriter *)

(** C8.  The rename passes are idempotent: running [replace_addv2] (or
    [replace_fusedbnv3]) twice leaves the run exactly as running it once
    does; either pass changes nothing but the operator tag of the nodes it
    renames; and on a graph with no node of the target kind it is a
    no-op. *)
Theorem op_rewriter_idempotent (s : Run) :
  (replace_addv2 ;; replace_addv2) s = replace_addv2 s /\
  (replace_fusedbnv3 ;; replace_fusedbnv3) s = replace_fusedbnv3 s /\
  (forall s', replace_addv2 s = (Returned tt, s') ->
     map (fun n => (gs.name n, gs.input n, gs.attr n, gs.trt_plugin n))
         (gs.node (graph s')) =
     map (fun n => (gs.name n, gs.input n, gs.attr n, gs.trt_plugin n))
         (gs.node (graph s))) /\
  (gs.find_nodes_by_op (graph s) "AddV2" = [] ->
     replace_addv2 s = (Returned tt, s)) /\
  (gs.find_nodes_by_op (graph s) "FusedBatchNormV3" = [] ->
     replace_fusedbnv3 s = (Returned tt, s)).
Proof.
  destruct s as [[nodes outs] tr].
  repeat split.
  - unfold bind. rewrite replace_addv2_run. cbn [with_graph graph].
    rewrite replace_addv2_run.
    cbn [with_graph graph gs.node gs.graph_outputs trace].
    rewrite renamed_twice by reflexivity. reflexivity.
  - unfold bind. rewrite replace_fusedbnv3_run. cbn [with_graph graph].
    rewrite replace_fusedbnv3_run.
    cbn [with_graph graph gs.node gs.graph_outputs trace].
    rewrite renamed_twice by reflexivity. reflexivity.
  - intros s'. rewrite replace_addv2_run. intros H.
    injection H as <-. cbn [with_graph graph gs.node].
    apply renamed_keeps.
  - intros H. rewrite replace_addv2_run.
    cbn [with_graph graph gs.node gs.graph_outputs trace].
    rewrite renamed_absent; [reflexivity |].
    apply (positions_nil_inv _ _ H).
  - intros H. rewrite replace_fusedbnv3_run.
    cbn [with_graph graph gs.node gs.graph_outputs trace].
    rewrite renamed_absent; [reflexivity |].
    apply (positions_nil_inv _ _ H).
Qed.

(** ** PluginFactory *)

Example v1_coco_registered :
  lookup "ssd_mobilenet_v1_coco" (MODEL_SPECS "/ssd") = Some v1_coco.
Proof. reflexivity. Qed.

(** C4, as the code has it.  Whatever the model, the prior-box replacement
    node carries the scales of the model specification, the five aspect
    ratios 1.0, 2.0, 0.5, 3.0, 0.33, the variance 0.1, 0.1, 0.2, 0.2, the six
    feature-map sizes 19, 10, 5, 3, 2, 1 and a layer count of 6, and nothing
    else. *)
Theorem priorbox_attributes (spec : ModelSpec) :
  gs.op (PriorBox spec) = "GridAnchor_TRT" /\
  gs.attr (PriorBox spec) =
    [("minSize", VFloat (min_size spec));
     ("maxSize", VFloat (max_size spec));
     ("aspectRatios", VFloatList [1.0; 2.0; 0.5; 3.0; 0.33]%Q);
     ("variance", VFloatList [0.1; 0.1; 0.2; 0.2]%Q);
     ("featureMapShapes", VIntList [19; 10; 5; 3; 2; 1]%Z);
     ("numLayers", VInt 6)] /\
  (exists ratios,
     get_attr "aspectRatios" (gs.attr (PriorBox spec))
       = Some (VFloatList ratios) /\ length ratios = 5) /\
  (exists sizes,
     get_attr "featureMapShapes" (gs.attr (PriorBox spec))
       = Some (VIntList sizes) /\ Z.of_nat (length sizes) = 6%Z).
Proof.
  repeat split.
  - eexists. split; reflexivity.
  - eexists. split; reflexivity.
Qed.

(** C4, as stated, asks for six aspect ratios; the node of the
    [ssd_mobilenet_v1_coco] model has five. *)
Lemma priorbox_not_six_aspect_ratios :
  ~ (exists ratios,
       get_attr "aspectRatios" (gs.attr (PriorBox v1_coco))
         = Some (VFloatList ratios) /\ length ratios = 6).
Proof.
  intros (ratios & H & Hlen). cbn in H. injection H as <-. discriminate Hlen.
Qed.

(** C5.  For the [ssd_mobilenet_v1_coco] entry of the registry (class count
    91, scales 0.2 and 0.95, input order 0, 2, 1) the NMS replacement node
    has class count 91, confidence threshold 0.3 and input order
    0, 2, 1. *)
Theorem nms_node_v1_coco (dir : string) :
  exists spec,
    lookup "ssd_mobilenet_v1_coco" (MODEL_SPECS dir) = Some spec /\
    num_classes spec = 91%Z /\
    min_size spec = 0.2%Q /\ max_size spec = 0.95%Q /\
    input_order spec = [0; 2; 1]%Z /\
    gs.op (NMS spec) = "NMS_TRT" /\
    get_attr "numClasses" (gs.attr (NMS spec)) = Some (VInt 91) /\
    get_attr "confidenceThreshold" (gs.attr (NMS spec))
      = Some (VFloat 0.3) /\
    get_attr "inputOrder" (gs.attr (NMS spec))
      = Some (VIntList [0; 2; 1]%Z).
Proof.
  eexists. split; [reflexivity |]. repeat split.
Qed.

(** ** The order of the passes *)

Lemma add_plugin_sequence v model spec :
  add_plugin v model spec =
  sequence_then (add_plugin_passes v spec) (read (fun g => g)).
Proof. reflexivity. Qed.








(** ** Cutting the script at a pass *)

Lemma passes_cut p l : passes_before p l ++ passes_from p l = l.
Proof.
  induction l as [| [q c] r IH]; simpl.
  - reflexivity.
  - destruct (pass_eqb q p); simpl; [reflexivity | now rewrite IH].
Qed.

Lemma bind_assoc {A B C : Type} (c : Py A) (f : A -> Py B) (g : B -> Py C) s :
  bind (bind c f) g s = bind c (fun a => bind (f a) g) s.
Proof. unfold bind. destruct (c s) as [[a | e] s1]; reflexivity. Qed.

Lemma bind_ext {A B : Type} (c : Py A) (k k' : A -> Py B) s :
  (forall a s1, k a s1 = k' a s1) -> bind c k s = bind c k' s.
Proof.
  intros H. unfold bind.
  destruct (c s) as [[a | e] s1]; [apply H | reflexivity].
Qed.

Lemma sequence_then_app {A : Type} l1 l2 (k : Py A) s :
  sequence_then (l1 ++ l2) k s =
  bind (sequence_then l1 (ret tt)) (fun _ => sequence_then l2 k) s.
Proof.
  revert s. induction l1 as [| [p c] r IH]; intros s; simpl.
  - reflexivity.
  - rewrite bind_assoc. apply bind_ext. intros _ s1. apply IH.
Qed.

Lemma add_plugin_cut p v model spec s :
  add_plugin v model spec s =
  bind (run_until p v spec) (fun _ => run_from p v spec) s.
Proof.
  rewrite add_plugin_sequence. unfold run_until, run_from.
  rewrite <- sequence_then_app, passes_cut. reflexivity.
Qed.

(** A pass that returns leaves the graph its body leaves. *)
Lemma step_returned p body s s' :
  step p body s = (Returned tt, s') ->
  exists s0,
    body (mkRun (graph s) (trace s ++ [Begin p])) = (Returned tt, s0) /\
    graph s' = graph s0.
Proof.
  unfold step, bind, emit.
  destruct (body (mkRun (graph s) (trace s ++ [Begin p])))
    as [[[] | e] s0]; intros H.
  - injection H as <-. exists s0. split; reflexivity.
  - discriminate H.
Qed.

(** ** GraphValidator: lines 255-259 *)

Lemma check_outputs_run s :
  check_outputs s =
  if py.contains "NMS" (output_names (graph s))
  then (Returned tt, s)
  else if py.contains "NMS" (output_names (retried (graph s)))
       then (Returned tt, with_graph (retried (graph s)) s)
       else (Raised (RuntimeError "bad graph_outputs"),
             with_graph (retried (graph s)) s).
Proof.
  unfold check_outputs, bind, read, mutate, retried, with_graph.
  cbn [graph trace].
  destruct (py.contains "NMS" (output_names (graph s))); cbn [negb].
  - reflexivity.
  - destruct (py.contains "NMS"
                (output_names
                   (gs.remove (gs.graph_outputs (graph s)) false (graph s))));
      reflexivity.
Qed.

Lemma contains_In x l : py.contains x l = true <-> In x l.
Proof.
  unfold py.contains. rewrite existsb_exists. split.
  - intros (y & Hy & E). apply String.eqb_eq in E. now subst y.
  - intros H. exists x. split; [exact H | apply String.eqb_refl].
Qed.

Lemma check_outputs_returned s s' :
  check_outputs s = (Returned tt, s') ->
  In "NMS" (output_names (graph s')).
Proof.
  rewrite check_outputs_run.
  destruct (py.contains "NMS" (output_names (graph s))) eqn:E1.
  - intros H. injection H as <-. now apply contains_In.
  - destruct (py.contains "NMS" (output_names (retried (graph s)))) eqn:E2;
      intros H; [| discriminate H].
    injection H as <-. now apply contains_In.
Qed.

(** C2, as the code has it.  Whenever [add_plugin] returns, the graph it
    returns is the graph object it was given, and a node called NMS is among
    its outputs; the output set is therefore never empty (it may hold other
    nodes besides NMS). *)
Theorem add_plugin_returns_nms_output (v : ascii) (model : string)
  (spec : ModelSpec) (s s' : Run) (res : gs.DynamicGraph) :
  add_plugin v model spec s = (Returned res, s') ->
  res = graph s' /\
  In "NMS" (output_names res) /\
  1 <= length (output_names res).
Proof.
  rewrite (add_plugin_cut OutputValidation). intros H.
  apply bind_returned in H. destruct H as ([] & s1 & _ & H).
  unfold run_from in H. cbn [passes_from add_plugin_passes pass_eqb] in H.
  cbn [sequence_then] in H.
  apply bind_returned in H. destruct H as ([] & s2 & Hstep & H).
  unfold read in H. injection H as <- <-.
  apply step_returned in Hstep. destruct Hstep as (s0 & Hbody & Hg).
  apply check_outputs_returned in Hbody. rewrite Hg.
  repeat split; [exact Hbody |].
  destruct (output_names (graph s0)); [destruct Hbody | simpl; lia].
Qed.

(** ** Runs on the example graphs *)

Example ssd_core_run :
  let r := add_plugin "7" "ssd_mobilenet_v1_coco" v1_coco (fresh ssd_core) in
  exists res,
    fst r = Returned res /\
    map (fun n => (gs.name n, gs.op n, gs.input n)) (gs.node res) =
      [("FeatureExtractor/conv", "Conv2D", ["Input"]);
       ("FeatureExtractor/add", "Add",
        ["FeatureExtractor/conv"; "FeatureExtractor/conv"]);
       ("BoxPredictor/loc", "Conv2D", ["FeatureExtractor/add"]);
       ("BoxPredictor/conf", "Conv2D", ["FeatureExtractor/add"]);
       ("MultipleGridAnchorGenerator", "GridAnchor_TRT", ["AnchorInput"]);
       ("NMS", "NMS_TRT",
        ["concat_box_loc"; "concat_box_conf"; "concat_priorbox"]);
       ("Input", "Placeholder", []);
       ("concat_priorbox", "ConcatV2", ["MultipleGridAnchorGenerator"]);
       ("concat_box_loc", "FlattenConcat_TRT", ["BoxPredictor/loc"]);
       ("concat_box_conf", "FlattenConcat_TRT", ["BoxPredictor/conf"]);
       ("AnchorInput", "Const", [])] /\
    output_names res = ["NMS"].
Proof.
  cbv zeta. eexists. split; [vm_compute; reflexivity |].
  split; vm_compute; reflexivity.
Qed.

(** The corrective action of line 256 at work: the end node behind NMS is
    removed, the outputs are derived again and NMS is the output. *)
Example retry_recovers :
  exists s10 res,
    run_until OutputValidation "7" v1_coco (fresh ssd_with_scores)
      = (Returned tt, s10) /\
    output_names (graph s10) = ["scores"] /\
    fst (add_plugin "7" "ssd_mobilenet_v1_coco" v1_coco
                    (fresh ssd_with_scores)) = Returned res /\
    output_names res = ["NMS"] /\
    ~ In "scores" (map gs.name (gs.node res)).
Proof.
  eexists _, _. split; [vm_compute; reflexivity |].
  split; [vm_compute; reflexivity |].
  split; [vm_compute; reflexivity |].
  split; [vm_compute; reflexivity |].
  vm_compute. intuition discriminate.
Qed.


(** C2, as stated, fails on the detector with a second end node:
    [add_plugin] returns and the output set holds two nodes. *)
Lemma two_outputs_returned :
  exists res s',
    add_plugin "7" "ssd_mobilenet_v1_coco" v1_coco (fresh ssd_with_summary)
      = (Returned res, s') /\
    output_names res = ["summary"; "NMS"] /\
    output_names res <> ["NMS"].
Proof.
  eexists _, _. split; [vm_compute; reflexivity |].
  split; vm_compute; [reflexivity | discriminate].
Qed.

(** The detector with a second end node: [add_plugin] returns, and NMS is
    among the outputs. *)
Lemma add_plugin_returns_nms_output_witness :
  exists res s',
    add_plugin "7" "ssd_mobilenet_v1_coco" v1_coco (fresh ssd_with_summary)
      = (Returned res, s') /\
    In "NMS" (output_names res).
Proof.
  eexists _, _. split.
  - vm_compute. reflexivity.
  - refine (proj1 (proj2 (add_plugin_returns_nms_output
                            "7" "ssd_mobilenet_v1_coco" v1_coco
                            (fresh ssd_with_summary) _ _ _))).
    vm_compute. reflexivity.
Defined.

(** A graph with neither an AddV2 nor a FusedBatchNormV3 node: both
    passes leave the run as it is. *)
Lemma op_rewriter_idempotent_witness :
  let s := mkRun (gs.analyse [nd "relu" "Relu" ["x"]]) [] in
  replace_addv2 s = (Returned tt, s) /\
  replace_fusedbnv3 s = (Returned tt, s).
Proof.
  intros s.
  destruct (op_rewriter_idempotent s) as (_ & _ & _ & Hadd & Hbn).
  split; [apply Hadd | apply Hbn]; reflexivity.
Defined.

(** ** Fatal structural error *)

Lemma validation_fatal v spec s :
  py.contains "NMS" (output_names (graph s)) = false ->
  py.contains "NMS" (output_names (retried (graph s))) = false ->
  fst (run_from OutputValidation v spec s)
    = Raised (RuntimeError "bad graph_outputs").
Proof.
  intros H1 H2. unfold run_from.
  cbn [passes_from add_plugin_passes pass_eqb sequence_then].
  unfold step, bind, emit. rewrite check_outputs_run. cbn [graph].
  rewrite H1, H2. reflexivity.
Qed.

Lemma not_In_contains x l : ~ In x l -> py.contains x l = false.
Proof.
  intros H. destruct (py.contains x l) eqn:E; [| reflexivity].
  apply contains_In in E. contradiction.
Qed.

(** C6.  When NMS is not among the outputs at the validation, and still is
    not once the current output nodes have been dropped, [add_plugin] raises
    [RuntimeError('bad graph_outputs')]: it returns no graph, and [main]
    writes neither the UFF file nor the engine. *)
Theorem missing_nms_is_fatal (dir : string) (v : ascii)
  (frozen : string -> list gs.NodeDef) (model : string) (spec : ModelSpec)
  (s1 : Run) :
  lookup model (MODEL_SPECS dir) = Some spec ->
  run_until OutputValidation v spec (load frozen (input_pb spec))
    = (Returned tt, s1) ->
  ~ In "NMS" (output_names (graph s1)) ->
  ~ In "NMS" (output_names (retried (graph s1))) ->
  fst (add_plugin v model spec (load frozen (input_pb spec)))
    = Raised (RuntimeError "bad graph_outputs") /\
  main dir v frozen model = (Raised (RuntimeError "bad graph_outputs"), []).
Proof.
  intros Hspec Hrun H1 H2.
  assert (Hadd : fst (add_plugin v model spec (load frozen (input_pb spec)))
                 = Raised (RuntimeError "bad graph_outputs")).
  { rewrite (add_plugin_cut OutputValidation).
    rewrite (bind_step _ _ _ _ _ Hrun).
    apply validation_fatal; now apply not_In_contains. }
  split; [exact Hadd |].
  unfold main. rewrite Hspec.
  destruct (add_plugin v model spec (load frozen (input_pb spec)))
    as [[res | e] s']; cbn [fst] in Hadd.
  - discriminate Hadd.
  - injection Hadd as ->. reflexivity.
Qed.

(** The detector with a two-layer tail: [main] stops with the fatal error
    and writes no file. *)
Lemma missing_nms_is_fatal_witness :
  main "/ssd" "7" (fun _ => ssd_with_tail) "ssd_mobilenet_v1_coco"
    = (Raised (RuntimeError "bad graph_outputs"), []).
Proof.
  refine (proj2 (missing_nms_is_fatal "/ssd" "7" (fun _ => ssd_with_tail)
                   "ssd_mobilenet_v1_coco" v1_coco _ _ _ _ _)).
  - reflexivity.
  - vm_compute. reflexivity.
  - vm_compute. intuition discriminate.
  - vm_compute. intuition discriminate.
Defined.

(** ** Unguarded subscripts *)

Lemma plugins_by_version v spec :
  plugins v spec = plugins (if trt7 v then "7" else "6")%char spec.
Proof.
  unfold plugins, concat_box_loc, concat_box_conf.
  destruct (trt7 v); reflexivity.
Qed.

(** C10.  There is an input graph on which [add_plugin] fails with
    [IndexError]: on the detector with a loop the output list is empty after
    the namespace collapse, and [graph.graph_outputs[0]] on line 250 is out
    of range.  The run ends there, inside the elision of the Squeeze node,
    and [main] stops with the same error, no file written. *)
Theorem add_plugin_index_error :
  exists nodes,
    forall (v : ascii) (model : string) (spec : ModelSpec),
      let r := add_plugin v model spec (fresh nodes) in
      fst r = Raised IndexError /\
      gs.graph_outputs (graph (snd r)) = [] /\
      last (trace (snd r)) (Begin AssertElimination) = Begin SqueezeElision.
Proof.
  exists ssd_with_loop. intros v model spec.
  unfold add_plugin, collapse. rewrite plugins_by_version.
  destruct (trt7 v); vm_compute; repeat split.
Qed.

(** ** References into the node list *)

Section Positions.

Context {A : Type}.
Variable p : A -> bool.

Lemma positions_cons x l :
  py.positions p (x :: l) =
  (if p x then [0] else []) ++ map S (py.positions p l).
Proof.
  unfold py.positions. simpl. rewrite positions_from_S.
  destruct (p x); reflexivity.
Qed.

Lemma positions_In i l :
  In i (py.positions p l) -> exists x, nth_error l i = Some x /\ p x = true.
Proof.
  revert i. induction l as [| x r IH]; intros i H.
  - destruct H.
  - rewrite positions_cons in H. apply in_app_or in H.
    destruct H as [H | H].
    + destruct (p x) eqn:E; [| destruct H].
      destruct H as [<- | []]. exists x. split; [reflexivity | exact E].
    + apply in_map_iff in H. destruct H as (j & <- & Hj).
      apply IH in Hj. exact Hj.
Qed.

Lemma positions_hd i rest l :
  py.positions p l = i :: rest ->
  exists x, nth_error l i = Some x /\ p x = true.
Proof.
  intros H. apply positions_In. rewrite H. left. reflexivity.
Qed.




Lemma positions_app_last l x :
  py.positions p (l ++ [x]) =
  py.positions p l ++ (if p x then [length l] else []).
Proof.
  induction l as [| y r IH].
  - simpl. rewrite positions_cons. unfold py.positions. simpl.
    now rewrite app_nil_r.
  - cbn [app]. rewrite !positions_cons, IH, map_app, app_assoc.
    destruct (p x); reflexivity.
Qed.

Lemma positions_update (f : A -> A) i l :
  (forall x, p (f x) = p x) ->
  py.positions p (py.update_nth i f l) = py.positions p l.
Proof.
  intros Hf. revert i. induction l as [| x r IH]; intros i.
  - destruct i; reflexivity.
  - destruct i as [| i]; cbn [py.update_nth]; rewrite !positions_cons.
    + rewrite Hf. reflexivity.
    + rewrite IH. reflexivity.
Qed.

End Positions.

Lemma nth_error_update_nth {A : Type} (f : A -> A) i j (l : list A) :
  nth_error (py.update_nth i f l) j =
  if Nat.eqb j i then option_map f (nth_error l j) else nth_error l j.
Proof.
  revert i j. induction l as [| x r IH]; intros i j.
  - destruct i, j; simpl; try reflexivity.
    destruct (Nat.eqb j i); reflexivity.
  - destruct i as [| i], j as [| j]; simpl; try reflexivity. apply IH.
Qed.

Lemma update_nth_ext_at {A : Type} (f f' : A -> A) i (l : list A) :
  (forall x, nth_error l i = Some x -> f x = f' x) ->
  py.update_nth i f l = py.update_nth i f' l.
Proof.
  revert i. induction l as [| x r IH]; intros i H.
  - destruct i; reflexivity.
  - destruct i as [| i]; simpl.
    + rewrite (H x eq_refl). reflexivity.
    + rewrite (IH i); [reflexivity |]. intros y Hy. apply H. exact Hy.
Qed.

Lemma update_nth_map {A B : Type} (g : A -> B) (f : A -> A) i (l : list A) :
  (forall x, g (f x) = g x) ->
  map g (py.update_nth i f l) = map g l.
Proof.
  intros H. revert i. induction l as [| x r IH]; intros i.
  - destruct i; reflexivity.
  - destruct i as [| i]; simpl; [rewrite H | rewrite IH]; reflexivity.
Qed.

Lemma deref_all_map {A B : Type} (g : A -> B) (l : list A) refs :
  map g (py.deref_all l refs) = py.deref_all (map g l) refs.
Proof.
  unfold py.deref_all. induction refs as [| i r IH]; simpl.
  - reflexivity.
  - rewrite map_app, IH, nth_error_map.
    destruct (nth_error l i); reflexivity.
Qed.

Lemma length_update_nth {A : Type} (f : A -> A) i (l : list A) :
  length (py.update_nth i f l) = length l.
Proof.
  revert i. induction l as [| x r IH]; intros [| i]; simpl; auto.
Qed.

(** ** Residual edges: lines 245-248 *)

Lemma strip_residual_edges_split s :
  strip_residual_edges s =
  (strip_edge "Input" "image_tensor:0" ;; strip_edge "NMS" "Input") s.
Proof.
  unfold strip_residual_edges, strip_edge.
  rewrite !bind_assoc. apply bind_ext. intros found s1.
  rewrite !bind_assoc. apply bind_ext. intros i s2.
  rewrite !bind_assoc. reflexivity.
Qed.

Lemma list_remove_contains x l :
  py.contains x l = true -> exists l', py.list_remove x l = Some l'.
Proof.
  induction l as [| y r IH]; simpl; intros H.
  - discriminate H.
  - destruct (String.eqb y x) eqn:E.
    + eexists. reflexivity.
    + rewrite String.eqb_sym, E in H. simpl in H.
      destruct (IH H) as (l' & ->). eexists. reflexivity.
Qed.



Lemma set_input_same n : gs.set_input (gs.input n) n = n.
Proof. destruct n. reflexivity. Qed.

Lemma update_nth_same {A : Type} (f : A -> A) i (l : list A) :
  (forall x, nth_error l i = Some x -> f x = x) -> py.update_nth i f l = l.
Proof.
  revert i. induction l as [| x r IH]; intros i H.
  - destruct i; reflexivity.
  - destruct i as [| i]; simpl.
    + rewrite (H x eq_refl). reflexivity.
    + rewrite IH; [reflexivity |]. intros y Hy. apply H. exact Hy.
Qed.

Lemma strip_edge_run nm x s i rest :
  gs.find_nodes_by_name (graph s) nm = i :: rest ->
  strip_edge nm x s =
  (Returned tt, with_graph (gs.assign_input i (stripped x) (graph s)) s).
Proof.
  intros Hfind. destruct s as [[nodes outs] tr].
  unfold strip_edge, bind, read. cbn [graph] in *. rewrite Hfind.
  cbn [item0 ret]. unfold with_graph, gs.assign_input.
  cbn [graph trace gs.node gs.graph_outputs].
  destruct (py.contains x (input_at i (gs.mkGraph nodes outs))) eqn:E.
  - cbv beta. cbn [graph]. rewrite Hfind. cbn [item0 ret].
    unfold input_remove, bind, read. cbn [graph].
    destruct (list_remove_contains _ _ E) as (l' & Hl'). rewrite Hl'.
    unfold mutate, gs.assign_input. cbn [graph trace gs.node gs.graph_outputs].
    f_equal. f_equal. f_equal. apply update_nth_ext_at. intros a Ha.
    unfold stripped. unfold input_at in E, Hl'. cbn [gs.node] in E, Hl'.
    rewrite Ha in E, Hl'. rewrite E, Hl'. reflexivity.
  - unfold ret. f_equal. f_equal. f_equal. symmetry. apply update_nth_same.
    intros a Ha. unfold stripped. unfold input_at in E. cbn [gs.node] in E.
    rewrite Ha in E. rewrite E. apply set_input_same.
Qed.

Lemma find_nodes_by_name_assign_input i f g nm :
  gs.find_nodes_by_name (gs.assign_input i f g) nm =
  gs.find_nodes_by_name g nm.
Proof.
  unfold gs.find_nodes_by_name, gs.assign_input. cbn [gs.node].
  apply positions_update. intros n. reflexivity.
Qed.

Lemma find_nodes_by_op_assign_input i f g kind :
  gs.find_nodes_by_op (gs.assign_input i f g) kind =
  gs.find_nodes_by_op g kind.
Proof.
  unfold gs.find_nodes_by_op, gs.assign_input. cbn [gs.node].
  apply positions_update. intros n. reflexivity.
Qed.

Lemma input_at_assign_input i j f g :
  input_at j (gs.assign_input i f g) =
  if Nat.eqb j i then
    match nth_error (gs.node g) j with
    | Some _ => f (input_at j g)
    | None => []
    end
  else input_at j g.
Proof.
  unfold input_at, gs.assign_input. cbn [gs.node].
  rewrite nth_error_update_nth.
  destruct (Nat.eqb j i); [| reflexivity].
  destruct (nth_error (gs.node g) j); reflexivity.
Qed.






Lemma hd_error_cons {A : Type} (l : list A) x :
  hd_error l = Some x -> exists r, l = x :: r.
Proof.
  destruct l as [| y r]; simpl; intros H; [discriminate H |].
  injection H as ->. now exists r.
Qed.




(** ** The output set *)



Lemma deref_all_In {A : Type} (l : list A) refs x :
  In x (py.deref_all l refs) -> In x l.
Proof.
  unfold py.deref_all. intros H. apply in_flat_map in H.
  destruct H as (i & _ & Hi).
  destruct (nth_error l i) as [y |] eqn:E; [| destruct Hi].
  destruct Hi as [<- | []]. eapply nth_error_In. exact E.
Qed.

Lemma output_names_are_names g x :
  In x (output_names g) -> In x (map gs.name (gs.node g)).
Proof.
  unfold output_names, gs.force_to_names, gs.force_to_nodes. intros H.
  apply in_map_iff in H. destruct H as (n & <- & Hn).
  apply in_map. eapply deref_all_In. exact Hn.
Qed.





Lemma has_consumer_app nodes n nm :
  gs.has_consumer (nodes ++ [n]) nm =
  gs.has_consumer nodes nm || gs.consumes nm n.
Proof.
  unfold gs.has_consumer. rewrite existsb_app. cbn [existsb].
  now rewrite orb_false_r.
Qed.

(** ** The missing input of the prior-box generator: lines 253-254 *)


Lemma find_nodes_by_op_append g n kind :
  String.eqb (gs.op n) kind = false ->
  gs.find_nodes_by_op (gs.append n g) kind = gs.find_nodes_by_op g kind.
Proof.
  intros H. unfold gs.find_nodes_by_op, gs.append, gs.analyse.
  cbn [gs.node]. rewrite positions_app_last, H. apply app_nil_r.
Qed.

Lemma ensure_anchor_input_repairs s i rest :
  gs.find_nodes_by_op (graph s) "GridAnchor_TRT" = i :: rest ->
  input_at i (graph s) = [] ->
  ensure_anchor_input s =
  (Returned tt,
   with_graph (gs.assign_input i (py.insert0 "AnchorInput")
                 (gs.append anchor_input (graph s))) s).
Proof.
  intros Hfind Hin. unfold ensure_anchor_input, bind, read.
  rewrite Hfind. cbn [item0 ret]. rewrite Hin. cbn [length Nat.ltb Nat.leb].
  unfold add_anchor_input, bind, mutate, read. cbn [graph].
  rewrite find_nodes_by_op_append by reflexivity. rewrite Hfind.
  reflexivity.
Qed.

Lemma ensure_anchor_input_keeps s i rest :
  gs.find_nodes_by_op (graph s) "GridAnchor_TRT" = i :: rest ->
  input_at i (graph s) <> [] ->
  ensure_anchor_input s = (Returned tt, s).
Proof.
  intros Hfind Hin. unfold ensure_anchor_input, bind, read.
  rewrite Hfind. cbn [item0 ret].
  destruct (input_at i (graph s)); [contradiction | reflexivity].
Qed.








(** ** The prior-box generator is in the graph from the collapse on *)

Lemma tag_add_input r n : tag (gs.add_input r n) = tag n.
Proof.
  unfold gs.add_input. destruct (py.contains r (gs.input n)); reflexivity.
Qed.

Lemma update_plugin_inputs_tags m p n ps :
  map tag (gs.update_plugin_inputs m p n ps) = map tag ps.
Proof.
  unfold gs.update_plugin_inputs. generalize (gs.input n) as ins.
  intros ins. revert ps. induction ins as [| r rest IH]; intros ps.
  - reflexivity.
  - cbn [fold_left]. rewrite IH.
    destruct (gs.get_plugin_node m (gs.strip_control r)) as [q |].
    + destruct (String.eqb (gs.plugin_name ps q) (gs.plugin_name ps p));
        [reflexivity |].
      apply update_nth_map. intros x. apply tag_add_input.
    + apply update_nth_map. intros x. apply tag_add_input.
Qed.

Lemma collapse_nodes_tags m nodes ps :
  map tag (snd (gs.collapse_nodes m nodes ps)) = map tag ps.
Proof.
  revert ps. induction nodes as [| n rest IH]; intros ps.
  - reflexivity.
  - cbn [gs.collapse_nodes].
    destruct (gs.get_plugin_node m (gs.name n)) as [p |].
    + rewrite IH. apply update_plugin_inputs_tags.
    + specialize (IH ps).
      destruct (gs.collapse_nodes m rest ps) as [kept ps']. exact IH.
Qed.








Lemma strip_edge_cases nm x s :
  (exists i rest,
     gs.find_nodes_by_name (graph s) nm = i :: rest /\
     strip_edge nm x s =
       (Returned tt, with_graph (gs.assign_input i (stripped x) (graph s)) s))
  \/ strip_edge nm x s = (Raised IndexError, s).
Proof.
  destruct (gs.find_nodes_by_name (graph s) nm) as [| i rest] eqn:E.
  - right. unfold strip_edge, bind, read. rewrite E. reflexivity.
  - left. exists i, rest. split; [reflexivity |].
    now apply strip_edge_run with (rest := rest).
Qed.




(** ** The stray output: lines 251-252 *)

Lemma remove_anchors_run s :
  remove_anchors s =
  (Returned tt,
   if py.contains "anchors" (output_names (graph s))
   then with_graph (gs.remove_names ["anchors"] false (graph s)) s
   else s).
Proof.
  unfold remove_anchors, bind, read.
  destruct (py.contains "anchors" (output_names (graph s))); reflexivity.
Qed.




(** When what [anchors] reads is read by the post-processing as well, the
    output set goes from {anchors, NMS} to exactly {NMS}. *)
Example anchors_dropped_exactly :
  exists s8 res,
    run_until AnchorsRemoval "7" v1_coco (fresh ssd_with_prior_anchors)
      = (Returned tt, s8) /\
    output_names (graph s8) = ["anchors"; "NMS"] /\
    fst (add_plugin "7" "ssd_mobilenet_v1_coco" v1_coco
                    (fresh ssd_with_prior_anchors)) = Returned res /\
    output_names res = ["NMS"].
Proof.
  eexists _, _.
  split; [vm_compute; reflexivity |].
  split; [vm_compute; reflexivity |].
  split; vm_compute; reflexivity.
Qed.



(** ** The replacement nodes after the collapse *)

Lemma add_input_nodup r n :
  NoDup (gs.input n) -> NoDup (gs.input (gs.add_input r n)).
Proof.
  intros H. unfold gs.add_input.
  destruct (py.contains r (gs.input n)) eqn:E; [exact H |].
  cbn [gs.set_input gs.input]. apply NoDup_app; [exact H | |].
  - constructor; [intros [] | constructor].
  - intros a Ha [<- | []]. apply contains_In in Ha. congruence.
Qed.

Lemma update_nth_Forall {A : Type} (P : A -> Prop) (f : A -> A) i l :
  (forall x, P x -> P (f x)) -> Forall P l -> Forall P (py.update_nth i f l).
Proof.
  intros Hf H. revert i. induction H as [| x r Hx Hr IH]; intros i.
  - destruct i; constructor.
  - destruct i as [| i]; cbn [py.update_nth]; constructor; auto.
Qed.

Lemma update_plugin_inputs_nodup m p n ps :
  Forall (fun q => NoDup (gs.input q)) ps ->
  Forall (fun q => NoDup (gs.input q)) (gs.update_plugin_inputs m p n ps).
Proof.
  unfold gs.update_plugin_inputs. generalize (gs.input n) as ins.
  intros ins. revert ps. induction ins as [| r rest IH]; intros ps H.
  - exact H.
  - cbn [fold_left]. apply IH.
    destruct (gs.get_plugin_node m (gs.strip_control r)) as [q |].
    + destruct (String.eqb (gs.plugin_name ps q) (gs.plugin_name ps p));
        [exact H |].
      apply update_nth_Forall; [| exact H].
      intros x. apply add_input_nodup.
    + apply update_nth_Forall; [| exact H].
      intros x. apply add_input_nodup.
Qed.

Lemma collapse_nodes_nodup m nodes ps :
  Forall (fun q => NoDup (gs.input q)) ps ->
  Forall (fun q => NoDup (gs.input q)) (snd (gs.collapse_nodes m nodes ps)).
Proof.
  revert ps. induction nodes as [| n rest IH]; intros ps H.
  - exact H.
  - cbn [gs.collapse_nodes].
    destruct (gs.get_plugin_node m (gs.name n)) as [p |].
    + apply IH. now apply update_plugin_inputs_nodup.
    + specialize (IH ps H).
      destruct (gs.collapse_nodes m rest ps) as [kept ps']. exact IH.
Qed.

Lemma deref_all_Forall {A : Type} (P : A -> Prop) (l : list A) refs :
  Forall P l -> Forall P (py.deref_all l refs).
Proof.
  intros H. apply Forall_forall. intros x Hx.
  apply deref_all_In in Hx. rewrite Forall_forall in H. now apply H.
Qed.

(** The namespace collapse appends the six replacement nodes, the prior-box
    generator first, and each of them lists a reference at most once. *)
Lemma collapse_replacements v spec g :
  exists kept appended,
    gs.node (gs.collapse_namespaces (plugins v spec) namespace_plugin_map g)
      = kept ++ appended /\
    map tag appended =
      map tag [PriorBox spec; NMS spec; Input; concat_priorbox;
               concat_box_loc v; concat_box_conf v] /\
    Forall (fun n => forall r, count_occ string_dec (gs.input n) r <= 1)
           appended.
Proof.
  unfold gs.collapse_namespaces.
  pose proof (collapse_nodes_tags namespace_plugin_map (gs.node g)
                (plugins v spec)) as Ht.
  pose proof (collapse_nodes_nodup namespace_plugin_map (gs.node g)
                (plugins v spec)) as Hn.
  destruct (gs.collapse_nodes namespace_plugin_map (gs.node g)
              (plugins v spec)) as [kept ps']. cbn [snd] in Ht, Hn.
  exists kept, (py.deref_all ps' (gs.unique [] (map snd namespace_plugin_map))).
  split; [reflexivity |]. split.
  - rewrite deref_all_map, Ht. reflexivity.
  - eapply Forall_impl; [| apply deref_all_Forall, Hn].
    + intros n Hnd. now apply NoDup_count_occ.
    + unfold plugins, concat_box_loc, concat_box_conf.
      destruct (trt7 v); repeat constructor.
Qed.

(** * Further properties of the script *)

(** ** The model registry: lines 23-96 *)



Lemma lookup_registered dir model spec :
  lookup model (MODEL_SPECS dir) = Some spec ->
  In model ["ssd_mobilenet_v1_coco"; "ssd_mobilenet_v1_egohands";
            "ssd_mobilenet_v2_coco"; "ssd_mobilenet_v2_egohands";
            "ssd_inception_v2_coco"; "ssdlite_mobilenet_v2_coco"] /\
  In (model, spec) (MODEL_SPECS dir).
Proof.
  unfold MODEL_SPECS. cbn [lookup].
  repeat match goal with
  | |- context [String.eqb ?k model] =>
      destruct (String.eqb_spec k model) as [<- | _];
      [ intros H; injection H as <-;
        split; cbn [In]; repeat (first [left; reflexivity | right]) | ]
  end.
  intros H. discriminate H.
Qed.



(** X2.  Every entry of the registry is a usable specification: the input
    order is a permutation of 0, 1, 2 (each of loc_data, conf_data and
    priorbox_data is read once), the scales satisfy 0 < min < max < 1, there
    are at least two classes, and the NMS replacement node carries exactly
    that order and that class count. *)
Theorem registry_entries_well_formed (dir model : string) (spec : ModelSpec) :
  lookup model (MODEL_SPECS dir) = Some spec ->
  Permutation (input_order spec) [0; 1; 2]%Z /\
  (0 < min_size spec /\ min_size spec < max_size spec /\ max_size spec < 1)%Q /\
  (2 <= num_classes spec)%Z /\
  get_attr "inputOrder" (gs.attr (NMS spec))
    = Some (VIntList (input_order spec)) /\
  get_attr "numClasses" (gs.attr (NMS spec))
    = Some (VInt (num_classes spec)).
Proof.
  intros H. apply lookup_registered in H. destruct H as (_ & H).
  unfold MODEL_SPECS in H. cbn [In] in H.
  assert (P021 : Permutation [0; 2; 1]%Z [0; 1; 2]%Z)
    by (apply perm_skip, perm_swap).
  assert (P102 : Permutation [1; 0; 2]%Z [0; 1; 2]%Z) by apply perm_swap.
  repeat (destruct H as [H | H];
          [injection H as <- <-; cbn [input_order min_size max_size
                                       num_classes];
           repeat split; try assumption; try reflexivity;
           try (unfold Z.le; cbn; discriminate) |]).
  destruct H.
Qed.

(** The entry whose input order is not the usual one. *)
Lemma registry_entries_well_formed_witness :
  exists spec,
    lookup "ssd_mobilenet_v2_coco" (MODEL_SPECS "/ssd") = Some spec /\
    Permutation (input_order spec) [0; 1; 2]%Z.
Proof.
  eexists. split; [reflexivity |].
  apply (registry_entries_well_formed "/ssd" "ssd_mobilenet_v2_coco").
  reflexivity.
Defined.

(** ** The version test: lines 198-219 and 270-271 *)

Lemma trt7_code v : trt7 v = true <-> (55 <= N_of_ascii v)%N.
Proof.
  unfold trt7, Ascii.leb, Ascii.compare.
  change (N_of_ascii "7") with 55%N.
  destruct (N.compare_spec 55 (N_of_ascii v)) as [E | E | E];
    split; intros H; try reflexivity; try lia; discriminate H.
Qed.

Lemma preload_code dir v :
  preload dir v = if trt7 v then [] else [LIB_FILE dir].
Proof.
  unfold preload, trt7, Ascii.ltb, Ascii.leb.
  rewrite (Ascii.compare_antisym "7" v).
  destruct (Ascii.compare v "7"); reflexivity.
Qed.

(** X3.  The two version tests of the script agree, and both compare the
    first character of the version string, not a number.  The two
    FlattenConcat nodes always carry the same attributes; they carry [axis]
    and [ignoreBatch] exactly when that character is ['7'] or a later one,
    and exactly then the script does not load [libflattenconcat.so] by hand.
    A version whose first character comes before ['7'] gets the bare nodes
    and the hand-loaded library. *)
Theorem flatten_concat_follows_version (dir : string) (v : ascii) :
  gs.attr (concat_box_loc v) = gs.attr (concat_box_conf v) /\
  ((55 <= N_of_ascii v)%N <->
     get_attr "ignoreBatch" (gs.attr (concat_box_loc v)) = Some (VInt 0)) /\
  ((55 <= N_of_ascii v)%N <-> preload dir v = []) /\
  ((N_of_ascii v < 55)%N <-> gs.attr (concat_box_loc v) = []) /\
  ((N_of_ascii v < 55)%N <->
     preload dir v = [path_join dir "libflattenconcat.so"]).
Proof.
  rewrite preload_code. unfold concat_box_loc, concat_box_conf.
  pose proof (trt7_code v) as H.
  destruct (trt7 v).
  - assert (55 <= N_of_ascii v)%N as Hv by (now apply H).
    repeat split; intros; try reflexivity; try assumption; try lia;
      discriminate.
  - assert (N_of_ascii v < 55)%N as Hv.
    { apply N.lt_nge. intros Hc. apply H in Hc. discriminate Hc. }
    repeat split; intros; try reflexivity; try assumption; try lia;
      discriminate.
Qed.

(** TensorRT 10: the first character of the version is ['1']. *)
Lemma flatten_concat_follows_version_witness :
  gs.attr (concat_box_loc "1") = [] /\
  preload "/ssd" "1" = ["/ssd/libflattenconcat.so"].
Proof.
  pose proof (flatten_concat_follows_version "/ssd" "1") as (_ & _ & _ & H & L).
  split; [apply H | apply L]; reflexivity.
Defined.

(** ** The anchor constant: lines 128-138 *)

Lemma update_nth_app {A : Type} (f : A -> A) i (l r : list A) :
  i < length l -> py.update_nth i f (l ++ r) = py.update_nth i f l ++ r.
Proof.
  revert i. induction l as [| x l IH]; intros i Hi; cbn [length] in Hi.
  - lia.
  - destruct i as [| i]; cbn [app py.update_nth]; [reflexivity |].
    rewrite IH by lia. reflexivity.
Qed.

Lemma nth_error_length {A : Type} (l : list A) i x :
  nth_error l i = Some x -> i < length l.
Proof.
  intros H. apply nth_error_Some. rewrite H. discriminate.
Qed.

Lemma add_anchor_input_run s i rest :
  gs.find_nodes_by_op (graph s) "GridAnchor_TRT" = i :: rest ->
  add_anchor_input s =
  (Returned tt,
   with_graph (gs.assign_input i (py.insert0 "AnchorInput")
                 (gs.append anchor_input (graph s))) s).
Proof.
  intros H. unfold add_anchor_input, bind, mutate, read. cbn [graph trace].
  rewrite find_nodes_by_op_append by reflexivity. rewrite H. reflexivity.
Qed.

(** X4.  [add_anchor_input] on a graph that has a prior-box generator: it
    returns, the constant [AnchorInput] becomes the last node of the graph,
    the first generator gets the reference [AnchorInput] in front of the
    inputs it had, which it keeps in their order, and no other node
    changes. *)
Theorem add_anchor_input_wires (s : Run) (i : nat) :
  hd_error (gs.find_nodes_by_op (graph s) "GridAnchor_TRT") = Some i ->
  exists s',
    add_anchor_input s = (Returned tt, s') /\
    trace s' = trace s /\
    length (gs.node (graph s')) = S (length (gs.node (graph s))) /\
    nth_error (gs.node (graph s')) (length (gs.node (graph s)))
      = Some anchor_input /\
    input_at i (graph s') = "AnchorInput" :: input_at i (graph s) /\
    map body_of (gs.node (graph s'))
      = map body_of (gs.node (graph s)) ++ [body_of anchor_input] /\
    (forall j, j <> i -> j < length (gs.node (graph s)) ->
       nth_error (gs.node (graph s')) j = nth_error (gs.node (graph s)) j).
Proof.
  intros H. apply hd_error_cons in H. destruct H as (rest & H).
  destruct (positions_hd _ _ _ _ H) as (x & Hx & _).
  pose proof (nth_error_length _ _ _ Hx) as Hi.
  eexists. split; [apply (add_anchor_input_run s i rest H) |].
  cbn [with_graph graph trace gs.assign_input gs.append gs.analyse gs.node].
  rewrite update_nth_app by exact Hi.
  split; [reflexivity |]. split.
  { rewrite length_app, length_update_nth. cbn [length]. lia. }
  split.
  { rewrite nth_error_app2 by (rewrite length_update_nth; lia).
    rewrite length_update_nth, Nat.sub_diag. reflexivity. }
  split.
  { unfold input_at.
    cbn [with_graph graph gs.assign_input gs.append gs.analyse gs.node].
    rewrite update_nth_app by exact Hi.
    rewrite nth_error_app1 by (rewrite length_update_nth; exact Hi).
    rewrite nth_error_update_nth, Nat.eqb_refl, Hx. reflexivity. }
  split.
  { rewrite map_app. f_equal. apply update_nth_map. intros n. reflexivity. }
  intros j Hj Hlt.
  rewrite nth_error_app1 by (rewrite length_update_nth; exact Hlt).
  rewrite nth_error_update_nth.
  destruct (Nat.eqb_spec j i) as [-> | _]; [contradiction | reflexivity].
Qed.

(** A generator that already has an input. *)
Lemma add_anchor_input_wires_witness :
  exists s',
    add_anchor_input
      (fresh [nd "x" "Relu" []; nd "grid" "GridAnchor_TRT" ["x"]])
      = (Returned tt, s') /\
    input_at 1 (graph s') = ["AnchorInput"; "x"].
Proof.
  destruct (add_anchor_input_wires
              (fresh [nd "x" "Relu" []; nd "grid" "GridAnchor_TRT" ["x"]]) 1
              eq_refl)
    as (s' & Hrun & _ & _ & _ & Hin & _).
  exists s'. split; [exact Hrun | exact Hin].
Defined.

(** X5.  [add_anchor_input] on a graph without a prior-box generator raises
    [IndexError] at the subscript of line 137, after the constant has been
    appended at line 136: the graph object is left with an [AnchorInput]
    node nothing refers to. *)
Theorem add_anchor_input_without_generator (s : Run) :
  gs.find_nodes_by_op (graph s) "GridAnchor_TRT" = [] ->
  add_anchor_input s =
    (Raised IndexError, with_graph (gs.append anchor_input (graph s)) s) /\
  gs.node (graph (snd (add_anchor_input s)))
    = gs.node (graph s) ++ [anchor_input] /\
  (gs.has_consumer (gs.node (graph s)) "AnchorInput" = false ->
   gs.has_consumer (gs.node (graph (snd (add_anchor_input s)))) "AnchorInput"
     = false).
Proof.
  intros H.
  assert (E : add_anchor_input s =
              (Raised IndexError,
               with_graph (gs.append anchor_input (graph s)) s)).
  { unfold add_anchor_input, bind, mutate, read. cbn [graph trace].
    rewrite find_nodes_by_op_append by reflexivity. rewrite H. reflexivity. }
  rewrite E. cbn [snd with_graph graph gs.append gs.analyse gs.node].
  split; [reflexivity |]. split; [reflexivity |].
  intros Hc. rewrite has_consumer_app, Hc. reflexivity.
Qed.

Lemma add_anchor_input_without_generator_witness :
  add_anchor_input (fresh [nd "x" "Relu" ["y"]]) =
  (Raised IndexError,
   with_graph (gs.append anchor_input (gs.analyse [nd "x" "Relu" ["y"]]))
              (fresh [nd "x" "Relu" ["y"]])).
Proof.
  apply (add_anchor_input_without_generator (fresh [nd "x" "Relu" ["y"]])).
  reflexivity.
Defined.

(** ** The guarded repair: lines 253-254 *)

Lemma ensure_anchor_input_cases s :
  (gs.find_nodes_by_op (graph s) "GridAnchor_TRT" = [] /\
   ensure_anchor_input s = (Raised IndexError, s)) \/
  (exists i rest s',
     gs.find_nodes_by_op (graph s) "GridAnchor_TRT" = i :: rest /\
     ensure_anchor_input s = (Returned tt, s') /\
     gs.find_nodes_by_op (graph s') "GridAnchor_TRT" = i :: rest /\
     input_at i (graph s') <> [] /\
     (input_at i (graph s) <> [] -> s' = s)).
Proof.
  destruct (gs.find_nodes_by_op (graph s) "GridAnchor_TRT") as [| i rest] eqn:E.
  - left. split; [reflexivity |].
    unfold ensure_anchor_input, bind, read. rewrite E. reflexivity.
  - right. exists i, rest.
    destruct (input_at i (graph s)) as [| r ins] eqn:Hin.
    + eexists. split; [reflexivity |].
      split; [apply (ensure_anchor_input_repairs s i rest E Hin) |].
      cbn [with_graph graph].
      rewrite find_nodes_by_op_assign_input.
      rewrite find_nodes_by_op_append by reflexivity.
      split; [exact E |]. split; [| intros H; now contradiction H].
      rewrite input_at_assign_input, Nat.eqb_refl.
      destruct (positions_hd _ _ _ _ E) as (x & Hx & _).
      cbn [gs.append gs.analyse gs.node].
      rewrite nth_error_app1 by (apply (nth_error_length _ _ _ Hx)).
      rewrite Hx. discriminate.
    + exists s. split; [reflexivity |].
      assert (Hne : input_at i (graph s) <> []) by (rewrite Hin; discriminate).
      split; [apply (ensure_anchor_input_keeps s i rest E Hne) |].
      split; [exact E |]. split; [rewrite Hin; discriminate | reflexivity].
Qed.

(** X6.  The guarded repair of lines 253-254 is idempotent: running it twice
    is running it once.  It raises nothing but the [IndexError] of a graph
    without generator, and then leaves the run as it found it; and when it
    returns, the first generator of the graph has at least one input. *)
Theorem ensure_anchor_input_idempotent (s : Run) :
  (ensure_anchor_input ;; ensure_anchor_input) s = ensure_anchor_input s /\
  (forall e s', ensure_anchor_input s = (Raised e, s') ->
     e = IndexError /\ s' = s /\
     gs.find_nodes_by_op (graph s) "GridAnchor_TRT" = []) /\
  (forall s', ensure_anchor_input s = (Returned tt, s') ->
     exists i,
       hd_error (gs.find_nodes_by_op (graph s') "GridAnchor_TRT") = Some i /\
       hd_error (gs.find_nodes_by_op (graph s) "GridAnchor_TRT") = Some i /\
       1 <= length (input_at i (graph s'))).
Proof.
  destruct (ensure_anchor_input_cases s)
    as [(E & H) | (i & rest & s1 & E & H & E1 & Hin & _)].
  - split; [| split].
    + rewrite (bind_raised _ _ _ _ _ H). symmetry. exact H.
    + intros e s' H'. rewrite H in H'. injection H' as <- <-.
      repeat split. exact E.
    + intros s' H'. rewrite H in H'. discriminate H'.
  - split; [| split].
    + rewrite (bind_step _ _ _ _ _ H), H.
      destruct (ensure_anchor_input_cases s1)
        as [(E' & _) | (i' & rest' & s2 & E' & H' & _ & _ & Hsame)].
      * rewrite E1 in E'. discriminate E'.
      * rewrite E1 in E'. injection E' as <- <-.
        rewrite H'. now rewrite (Hsame Hin).
    + intros e s' H'. rewrite H in H'. discriminate H'.
    + intros s' H'. rewrite H in H'. injection H' as <-.
      exists i. rewrite E1, E. repeat split.
      destruct (input_at i (graph s1)); [now contradiction Hin |].
      cbn [length]. lia.
Qed.

(** ** The residual edges: lines 245-248 *)

Lemma body_of_assign_input i f g :
  map body_of (gs.node (gs.assign_input i f g)) = map body_of (gs.node g).
Proof.
  unfold gs.assign_input. cbn [gs.node]. apply update_nth_map.
  intros x. reflexivity.
Qed.

Lemma strip_edge_frame nm x s :
  let r := strip_edge nm x s in
  (fst r = Returned tt /\ gs.find_nodes_by_name (graph s) nm <> [] \/
   r = (Raised IndexError, s) /\ gs.find_nodes_by_name (graph s) nm = []) /\
  trace (snd r) = trace s /\
  gs.graph_outputs (graph (snd r)) = gs.graph_outputs (graph s) /\
  map body_of (gs.node (graph (snd r))) = map body_of (gs.node (graph s)) /\
  (forall nm', gs.find_nodes_by_name (graph (snd r)) nm'
               = gs.find_nodes_by_name (graph s) nm') /\
  (forall j n, nth_error (gs.node (graph s)) j = Some n ->
     gs.name n <> nm ->
     nth_error (gs.node (graph (snd r))) j = Some n).
Proof.
  cbv zeta.
  destruct (strip_edge_cases nm x s) as [(i & rest & E & H) | H]; rewrite H.
  - cbn [fst snd with_graph graph trace].
    split; [left; split; [reflexivity | rewrite E; discriminate] |].
    split; [reflexivity |]. split; [reflexivity |].
    split; [apply body_of_assign_input |].
    split; [intros nm'; apply find_nodes_by_name_assign_input |].
    intros j n Hj Hn. unfold gs.assign_input. cbn [gs.node].
    rewrite nth_error_update_nth.
    destruct (Nat.eqb_spec j i) as [-> | _]; [| exact Hj].
    destruct (positions_hd _ _ _ _ E) as (y & Hy & Hname).
    rewrite Hj in Hy. injection Hy as <-.
    apply String.eqb_eq in Hname. contradiction.
  - cbn [fst snd].
    split.
    { right. split; [reflexivity |].
      destruct (gs.find_nodes_by_name (graph s) nm) as [| i rest] eqn:E;
        [reflexivity |].
      rewrite (strip_edge_run nm x s i rest E) in H. discriminate H. }
    repeat split; auto.
Qed.

(** X7.  Lines 245-248 touch nothing but two input lists.  They never raise
    the [ValueError] of [list.remove], since each removal is guarded by the
    membership test; they raise [IndexError] exactly when the graph has no
    node called Input or no node called NMS.  In every case the record of
    passes, the output list of the graph object, the number and order of the
    nodes and the name, tag, attributes and plugin flag of every node are as
    before, and a node that is called neither Input nor NMS is unchanged. *)
Theorem strip_residual_edges_frame (s : Run) :
  let r := strip_residual_edges s in
  (fst r = Returned tt \/ fst r = Raised IndexError) /\
  (fst r = Raised IndexError <->
     gs.find_nodes_by_name (graph s) "Input" = [] \/
     gs.find_nodes_by_name (graph s) "NMS" = []) /\
  trace (snd r) = trace s /\
  gs.graph_outputs (graph (snd r)) = gs.graph_outputs (graph s) /\
  map body_of (gs.node (graph (snd r))) = map body_of (gs.node (graph s)) /\
  (forall j n, nth_error (gs.node (graph s)) j = Some n ->
     gs.name n <> "Input" -> gs.name n <> "NMS" ->
     nth_error (gs.node (graph (snd r))) j = Some n).
Proof.
  cbv zeta. rewrite strip_residual_edges_split.
  pose proof (strip_edge_frame "Input" "image_tensor:0" s) as F1.
  cbv zeta in F1.
  destruct (strip_edge "Input" "image_tensor:0" s) as [[[] | e] s1] eqn:E1.
  - rewrite (bind_step _ _ _ _ _ E1). cbn [fst snd] in F1.
    destruct F1 as ([(_ & N1) | (F1 & _)] & T1 & O1 & B1 & S1 & K1);
      [| discriminate F1].
    pose proof (strip_edge_frame "NMS" "Input" s1) as F2. cbv zeta in F2.
    destruct F2 as (C2 & T2 & O2 & B2 & _ & K2).
    rewrite T2, O2, B2, T1, O1, B1. rewrite S1 in C2.
    split; [| split; [| repeat split]].
    + destruct C2 as [(C2 & _) | (C2 & _)]; [left; exact C2 |].
      right. rewrite C2. reflexivity.
    + destruct C2 as [(C2 & N2) | (C2 & N2)].
      * rewrite C2. split; [intros H; discriminate H |].
        intros [H | H]; contradiction.
      * rewrite C2. cbn [fst]. split; [intros _; right; exact N2 |].
        reflexivity.
    + intros j n Hj Hi Hn. apply K2; [| exact Hn]. now apply K1.
  - rewrite (bind_raised _ _ _ _ _ E1). cbn [fst snd] in F1 |- *.
    destruct F1 as ([(F1 & _) | (F1 & N1)] & T1 & O1 & B1 & _ & K1);
      [discriminate F1 |].
    injection F1 as -> ->.
    split; [right; reflexivity |].
    split; [split; [intros _; left; exact N1 | reflexivity] |].
    repeat split; auto.
Qed.

(** ** The validation of the outputs: lines 255-259 *)

(** X8.  The validation is idempotent: a second run changes nothing and
    raises exactly when the first did.  It leaves the run alone when NMS is
    among the outputs; the only exception it raises is the [RuntimeError]
    of line 259, after the removal of line 256 has been carried out, and NMS
    is then not among the outputs of the graph it leaves. *)
Theorem check_outputs_idempotent (s : Run) :
  (check_outputs ;; check_outputs) s = check_outputs s /\
  (In "NMS" (output_names (graph s)) -> check_outputs s = (Returned tt, s)) /\
  (forall e s', check_outputs s = (Raised e, s') ->
     e = RuntimeError "bad graph_outputs" /\
     s' = with_graph (retried (graph s)) s /\
     ~ In "NMS" (output_names (graph s)) /\
     ~ In "NMS" (output_names (graph s'))).
Proof.
  pose proof (check_outputs_run s) as H.
  destruct (py.contains "NMS" (output_names (graph s))) eqn:E1.
  - split; [| split].
    + rewrite (bind_step _ _ _ _ _ H). reflexivity.
    + intros _. exact H.
    + intros e s' H'. rewrite H in H'. discriminate H'.
  - assert (N1 : ~ In "NMS" (output_names (graph s))).
    { intros Hc. apply contains_In in Hc. rewrite Hc in E1. discriminate E1. }
    destruct (py.contains "NMS" (output_names (retried (graph s)))) eqn:E2.
    + split; [| split].
      * rewrite (bind_step _ _ _ _ _ H), H.
        rewrite check_outputs_run. cbn [with_graph graph]. rewrite E2.
        reflexivity.
      * intros Hc. contradiction.
      * intros e s' H'. rewrite H in H'. discriminate H'.
    + split; [| split].
      * rewrite (bind_raised _ _ _ _ _ H). symmetry. exact H.
      * intros Hc. contradiction.
      * intros e s' H'. rewrite H in H'. injection H' as <- <-.
        cbn [with_graph graph]. repeat split; [exact N1 |].
        intros Hc. apply contains_In in Hc. rewrite Hc in E2.
        discriminate E2.
Qed.

(** ** The stray output: lines 251-252, on any graph *)

Lemma remove_impl_drops names nodes n :
  In n (gs.remove_impl names nodes) -> py.contains (gs.name n) names = false.
Proof.
  unfold gs.remove_impl. intros H. apply in_map_iff in H.
  destruct H as (x & <- & Hx). apply filter_In in Hx.
  destruct Hx as (_ & Hx). cbn [gs.set_input gs.name].
  now apply negb_true_iff in Hx.
Qed.

(** X9.  Lines 251-252 never raise, leave the run alone unless a node
    called anchors is among the outputs, and leave a graph in which no
    output is called anchors; run a second time they change nothing. *)
Theorem remove_anchors_idempotent (s : Run) :
  (exists s', remove_anchors s = (Returned tt, s') /\
              ~ In "anchors" (output_names (graph s')) /\
              trace s' = trace s) /\
  (~ In "anchors" (output_names (graph s)) ->
   remove_anchors s = (Returned tt, s)) /\
  (remove_anchors ;; remove_anchors) s = remove_anchors s.
Proof.
  pose proof (remove_anchors_run s) as H.
  destruct (py.contains "anchors" (output_names (graph s))) eqn:E.
  - assert (N : ~ In "anchors"
                  (output_names (gs.remove_names ["anchors"] false (graph s)))).
    { intros Hc. apply output_names_are_names in Hc.
      apply in_map_iff in Hc. destruct Hc as (n & Hn & Hc).
      unfold gs.remove_names, gs.analyse in Hc. cbn [gs.node] in Hc.
      apply remove_impl_drops in Hc. rewrite Hn in Hc. discriminate Hc. }
    split; [| split].
    + eexists. split; [exact H |]. split; [exact N | reflexivity].
    + intros Hc. apply not_In_contains in Hc. rewrite Hc in E.
      discriminate E.
    + rewrite (bind_step _ _ _ _ _ H), H. rewrite remove_anchors_run.
      cbn [with_graph graph]. rewrite (not_In_contains _ _ N). reflexivity.
  - assert (N : ~ In "anchors" (output_names (graph s))).
    { intros Hc. apply contains_In in Hc. rewrite Hc in E. discriminate E. }
    split; [| split].
    + exists s. split; [exact H |]. split; [exact N | reflexivity].
    + intros _. exact H.
    + rewrite (bind_step _ _ _ _ _ H). reflexivity.
Qed.

(** ** The rewrites: lines 101-125 and 242-243 *)

Lemma positions_nil {A : Type} (p : A -> bool) l :
  (forall x, In x l -> p x = false) -> py.positions p l = [].
Proof.
  unfold py.positions. generalize 0.
  induction l as [| x l IH]; intros i H; cbn [py.positions_from].
  - reflexivity.
  - rewrite H by (left; reflexivity). apply IH.
    intros y Hy. apply H. right. exact Hy.
Qed.

Lemma renamed_lacks from to nodes :
  String.eqb to from = false ->
  lacks from (gs.mkGraph (renamed from to nodes) []).
Proof.
  intros Hne. unfold lacks, gs.find_nodes_by_op. cbn [gs.node].
  apply positions_nil. intros x Hx. unfold renamed in Hx.
  apply in_map_iff in Hx. destruct Hx as (n & <- & _).
  destruct (String.eqb (gs.op n) from) eqn:E;
    [cbn [gs.set_op gs.op]; exact Hne | exact E].
Qed.

Lemma lacks_nodes kind g g' :
  gs.node g = gs.node g' -> lacks kind g -> lacks kind g'.
Proof.
  unfold lacks, gs.find_nodes_by_op. now intros ->.
Qed.

Lemma renamed_commute a b c d nodes :
  String.eqb a c = false -> String.eqb b c = false ->
  String.eqb d a = false ->
  renamed a b (renamed c d nodes) = renamed c d (renamed a b nodes).
Proof.
  intros Hac Hbc Hda. unfold renamed. rewrite !map_map. apply map_ext.
  intros n.
  destruct (String.eqb (gs.op n) c) eqn:Ec;
    destruct (String.eqb (gs.op n) a) eqn:Ea;
    cbn [gs.set_op gs.op]; rewrite ?Ec, ?Ea, ?Hbc, ?Hda; try reflexivity.
  apply String.eqb_eq in Ec, Ea. rewrite Ec in Ea. subst a.
  rewrite String.eqb_refl in Hac. discriminate Hac.
Qed.

Lemma renamed_other from to nodes n :
  In n nodes -> gs.op n <> from -> In n (renamed from to nodes).
Proof.
  intros Hn Hop. unfold renamed. apply in_map_iff. exists n.
  split; [| exact Hn].
  destruct (String.eqb_spec (gs.op n) from); [contradiction | reflexivity].
Qed.

Lemma rewrites_run s :
  (replace_addv2 ;; replace_fusedbnv3) s =
  (Returned tt,
   with_graph
     (gs.mkGraph
        (renamed "FusedBatchNormV3" "FusedBatchNorm"
           (renamed "AddV2" "Add" (gs.node (graph s))))
        (gs.graph_outputs (graph s))) s).
Proof.
  rewrite (bind_step _ _ _ _ _ (replace_addv2_run s)).
  rewrite replace_fusedbnv3_run. reflexivity.
Qed.

(** X10.  The two rewrites of lines 242-243 commute, never raise, and leave
    a graph with no node tagged AddV2 and no node tagged FusedBatchNormV3;
    a node tagged otherwise is left as it is, and neither the output list of
    the graph object nor the record of passes changes. *)
Theorem rewrites_commute (s : Run) :
  (replace_addv2 ;; replace_fusedbnv3) s
    = (replace_fusedbnv3 ;; replace_addv2) s /\
  exists s',
    (replace_addv2 ;; replace_fusedbnv3) s = (Returned tt, s') /\
    lacks "AddV2" (graph s') /\
    lacks "FusedBatchNormV3" (graph s') /\
    (forall n, In n (gs.node (graph s)) ->
       gs.op n <> "AddV2" -> gs.op n <> "FusedBatchNormV3" ->
       In n (gs.node (graph s'))) /\
    length (gs.node (graph s')) = length (gs.node (graph s)) /\
    gs.graph_outputs (graph s') = gs.graph_outputs (graph s) /\
    trace s' = trace s.
Proof.
  split.
  - rewrite rewrites_run.
    rewrite (bind_step _ _ _ _ _ (replace_fusedbnv3_run s)).
    rewrite replace_addv2_run. cbn [with_graph graph gs.node gs.graph_outputs
                                    trace].
    rewrite renamed_commute by reflexivity. reflexivity.
  - eexists. split; [apply rewrites_run |].
    cbn [with_graph graph gs.node gs.graph_outputs trace].
    split; [| split; [| split; [| split; [| split]]]].
    + rewrite <- renamed_commute by reflexivity.
      eapply lacks_nodes; [| apply (renamed_lacks "AddV2" "Add")];
        [reflexivity | reflexivity].
    + eapply lacks_nodes;
        [| apply (renamed_lacks "FusedBatchNormV3" "FusedBatchNorm")];
        [reflexivity | reflexivity].
    + intros n Hn H1 H2. apply renamed_other; [| exact H2].
      apply renamed_other; assumption.
    + unfold renamed. now rewrite !length_map.
    + reflexivity.
    + reflexivity.
Qed.

(** ** Invariants of the graph object *)

Lemma keeps_ret P {A : Type} (a : A) : keeps P (ret a).
Proof. intros s H. exact H. Qed.

Lemma keeps_raise P {A : Type} (e : PyError) : keeps P (@raise A e).
Proof. intros s H. exact H. Qed.

Lemma keeps_read P {A : Type} (f : gs.DynamicGraph -> A) : keeps P (read f).
Proof. intros s H. exact H. Qed.

Lemma keeps_emit P e : keeps P (emit e).
Proof. intros s H. exact H. Qed.

Lemma keeps_mutate (P : gs.DynamicGraph -> Prop) f :
  (forall g, P g -> P (f g)) -> keeps P (mutate f).
Proof. intros Hf s H. apply Hf. exact H. Qed.

Lemma keeps_bind P {A B : Type} (c : Py A) (k : A -> Py B) :
  keeps P c -> (forall a, keeps P (k a)) -> keeps P (bind c k).
Proof.
  intros Hc Hk s H. specialize (Hc s H). unfold bind.
  destruct (c s) as [[a | e] s1]; cbn [snd] in Hc |- *.
  - apply Hk. exact Hc.
  - exact Hc.
Qed.

Lemma keeps_item0 P {A : Type} (l : list A) : keeps P (item0 l).
Proof. destruct l; [apply keeps_raise | apply keeps_ret]. Qed.

Lemma keeps_if P {A : Type} (b : bool) (c1 c2 : Py A) :
  keeps P c1 -> keeps P c2 -> keeps P (if b then c1 else c2).
Proof. destruct b; auto. Qed.

Lemma keeps_for_each P {A : Type} (l : list A) (body : A -> Py unit) :
  (forall a, keeps P (body a)) -> keeps P (for_each l body).
Proof.
  intros Hb. induction l as [| x l IH]; cbn [for_each].
  - apply keeps_ret.
  - apply keeps_bind; [apply Hb | intros _; exact IH].
Qed.

Lemma keeps_step P p body : keeps P body -> keeps P (step p body).
Proof.
  intros Hb. unfold step.
  apply keeps_bind; [apply keeps_emit | intros _].
  apply keeps_bind; [exact Hb | intros _; apply keeps_emit].
Qed.

Lemma keeps_sequence_then P {A : Type} (l : list (Pass * Py unit))
  (k : Py A) :
  Forall (fun pc => keeps P (snd pc)) l -> keeps P k ->
  keeps P (sequence_then l k).
Proof.
  intros Hl Hk. induction Hl as [| [p c] l Hc Hl IH]; cbn [sequence_then].
  - exact Hk.
  - apply keeps_bind; [apply keeps_step; exact Hc | intros _; exact IH].
Qed.

Lemma Forall_passes_from (Q : Pass * Py unit -> Prop) p l :
  Forall Q l -> Forall Q (passes_from p l).
Proof.
  intros H. induction H as [| [q c] l Hq Hl IH]; cbn [passes_from].
  - constructor.
  - destruct (pass_eqb q p); [constructor; assumption | exact IH].
Qed.

(** A pass that only removes nodes or rewires them puts nothing new into
    the graph: whatever is read off a node by a function [f] that does not
    look at the inputs was there before.  The rewrites put the tags Add and
    FusedBatchNorm, the collapse the replacement nodes, the repair the anchor
    constant. *)
Section Frame.

Context {B : Type}.
Variable f : gs.NodeDef -> B.
Hypothesis f_set_input : forall l n, f (gs.set_input l n) = f n.

Lemma remove_impl_within names nodes :
  incl (map f (gs.remove_impl names nodes)) (map f nodes).
Proof.
  unfold gs.remove_impl. rewrite map_map.
  rewrite (map_ext _ f) by (intros n; apply f_set_input).
  apply incl_map, incl_filter.
Qed.

Lemma sweep_within fuel keep nodes :
  incl (map f (gs.sweep fuel keep nodes)) (map f nodes).
Proof.
  revert nodes. induction fuel as [| fuel IH]; intros nodes; cbn [gs.sweep].
  - apply incl_refl.
  - destruct (map gs.name (filter (gs.orphan keep nodes) nodes)) as [| d ds].
    + apply incl_refl.
    + eapply incl_tran; [apply IH | apply remove_impl_within].
Qed.

Lemma remove_names_within names cascade g :
  incl (map f (gs.node (gs.remove_names names cascade g))) (map f (gs.node g)).
Proof.
  unfold gs.remove_names, gs.analyse. cbn [gs.node].
  destruct cascade.
  - eapply incl_tran; [apply sweep_within | apply remove_impl_within].
  - apply remove_impl_within.
Qed.

Lemma forward_one_within nodes nm :
  incl (map f (gs.forward_one nodes nm)) (map f nodes).
Proof.
  unfold gs.forward_one.
  destruct (find (fun n => String.eqb (gs.name n) nm) nodes) as [fwd |];
    [| apply incl_refl].
  rewrite map_map.
  rewrite (map_ext _ f) by (intros n; apply f_set_input).
  apply incl_map, incl_filter.
Qed.

Lemma forward_all_within names nodes :
  incl (map f (fold_left gs.forward_one names nodes)) (map f nodes).
Proof.
  revert nodes. induction names as [| nm rest IH]; intros nodes;
    cbn [fold_left].
  - apply incl_refl.
  - eapply incl_tran; [apply IH | apply forward_one_within].
Qed.

Lemma assign_input_map i h g :
  map f (gs.node (gs.assign_input i h g)) = map f (gs.node g).
Proof.
  unfold gs.assign_input. cbn [gs.node]. apply update_nth_map.
  intros x. apply f_set_input.
Qed.

Lemma add_input_map r n : f (gs.add_input r n) = f n.
Proof.
  unfold gs.add_input.
  destruct (py.contains r (gs.input n)); [reflexivity | apply f_set_input].
Qed.

Lemma update_plugin_inputs_map m p n ps :
  map f (gs.update_plugin_inputs m p n ps) = map f ps.
Proof.
  unfold gs.update_plugin_inputs. generalize (gs.input n) as ins.
  intros ins. revert ps. induction ins as [| r rest IH]; intros ps.
  - reflexivity.
  - cbn [fold_left]. rewrite IH.
    destruct (gs.get_plugin_node m (gs.strip_control r)) as [q |].
    + destruct (String.eqb (gs.plugin_name ps q) (gs.plugin_name ps p));
        [reflexivity |].
      apply update_nth_map. intros x. apply add_input_map.
    + apply update_nth_map. intros x. apply add_input_map.
Qed.

Lemma collapse_nodes_within m nodes ps :
  incl (map f (fst (gs.collapse_nodes m nodes ps))) (map f nodes) /\
  map f (snd (gs.collapse_nodes m nodes ps)) = map f ps.
Proof.
  revert ps. induction nodes as [| n rest IH]; intros ps.
  - split; [apply incl_refl | reflexivity].
  - cbn [gs.collapse_nodes].
    destruct (gs.get_plugin_node m (gs.name n)) as [p |].
    + destruct (IH (gs.update_plugin_inputs m p n ps)) as (H1 & H2).
      split.
      * cbn [map]. apply incl_tl. exact H1.
      * rewrite H2. apply update_plugin_inputs_map.
    + destruct (IH ps) as (H1 & H2).
      destruct (gs.collapse_nodes m rest ps) as [kept ps'].
      cbn [fst snd] in *. split; [| exact H2].
      cbn [map]. rewrite f_set_input.
      apply incl_cons; [left; reflexivity | apply incl_tl; exact H1].
Qed.

Lemma collapse_namespaces_within ps m g :
  incl (map f (gs.node (gs.collapse_namespaces ps m g)))
       (map f (gs.node g) ++ map f ps).
Proof.
  unfold gs.collapse_namespaces.
  destruct (collapse_nodes_within m (gs.node g) ps) as (H1 & H2).
  destruct (gs.collapse_nodes m (gs.node g) ps) as [kept ps'].
  cbn [fst snd] in *. unfold gs.analyse. cbn [gs.node].
  rewrite map_app. apply incl_app_app; [exact H1 |].
  rewrite <- H2. apply incl_map. intros x Hx.
  apply deref_all_In in Hx. exact Hx.
Qed.

Variable base : list B.
Variable v : ascii.
Variable spec : ModelSpec.
Hypothesis base_plugins : incl (map f (plugins v spec)) base.
Hypothesis base_anchor : In (f anchor_input) base.
Hypothesis base_set_op :
  forall kind n, In kind ["Add"; "FusedBatchNorm"] ->
    In (f n) base -> In (f (gs.set_op kind n)) base.

Lemma within_remove refs cascade g :
  within f base g -> within f base (gs.remove refs cascade g).
Proof.
  unfold within, gs.remove. intros H.
  eapply incl_tran; [apply remove_names_within | exact H].
Qed.

Lemma within_remove_names names cascade g :
  within f base g -> within f base (gs.remove_names names cascade g).
Proof.
  unfold within. intros H.
  eapply incl_tran; [apply remove_names_within | exact H].
Qed.

Lemma within_forward_inputs refs g :
  within f base g -> within f base (gs.forward_inputs refs g).
Proof.
  unfold within, gs.forward_inputs, gs.analyse. cbn [gs.node]. intros H.
  eapply incl_tran; [apply forward_all_within | exact H].
Qed.

Lemma within_assign_input i h g :
  within f base g -> within f base (gs.assign_input i h g).
Proof.
  unfold within. now rewrite assign_input_map.
Qed.

Lemma within_collapse g :
  within f base g ->
  within f base (gs.collapse_namespaces (plugins v spec)
                   namespace_plugin_map g).
Proof.
  unfold within. intros H.
  eapply incl_tran; [apply collapse_namespaces_within |].
  apply incl_app; [exact H | exact base_plugins].
Qed.

Lemma within_append g :
  within f base g -> within f base (gs.append anchor_input g).
Proof.
  unfold within, gs.append, gs.analyse. cbn [gs.node]. intros H.
  rewrite map_app. apply incl_app; [exact H |].
  intros x [<- | []]. exact base_anchor.
Qed.

Lemma within_update_node i kind g :
  In kind ["Add"; "FusedBatchNorm"] ->
  within f base g -> within f base (gs.update_node i kind g).
Proof.
  unfold within, gs.update_node. cbn [gs.node]. intros Hk.
  generalize (gs.node g) as l. intros l. revert i.
  induction l as [| x l IH]; intros i H.
  - destruct i; exact H.
  - apply incl_cons_inv in H. destruct H as (Hx & Hl).
    destruct i as [| i]; cbn [py.update_nth map].
    + apply incl_cons; [now apply base_set_op | exact Hl].
    + apply incl_cons; [exact Hx | apply IH; exact Hl].
Qed.

Ltac frame :=
  repeat first
    [ apply keeps_ret | apply keeps_raise | apply keeps_read
    | apply keeps_item0
    | apply keeps_bind; [| intros ?]
    | apply keeps_if
    | apply keeps_for_each; intros ?
    | apply keeps_mutate; intros ? ? ].

Lemma passes_within :
  Forall (fun pc => keeps (within f base) (snd pc)) (add_plugin_passes v spec).
Proof.
  unfold add_plugin_passes.
  repeat (apply Forall_cons; [cbn [snd] |]); [.. | apply Forall_nil].
  - unfold remove_asserts. frame. now apply within_remove.
  - unfold forward_identities. frame. now apply within_forward_inputs.
  - unfold remove_tensor_array. frame. now apply within_remove.
  - unfold collapse. frame. now apply within_collapse.
  - unfold replace_addv2. frame.
    apply within_update_node; [left; reflexivity | assumption].
  - unfold replace_fusedbnv3. frame.
    apply within_update_node; [right; left; reflexivity | assumption].
  - unfold strip_residual_edges, input_remove. frame;
      try (destruct (py.list_remove _ _); frame);
      now apply within_assign_input.
  - unfold forward_squeeze. frame. now apply within_forward_inputs.
  - unfold remove_anchors. frame. now apply within_remove_names.
  - unfold ensure_anchor_input, add_anchor_input. frame.
    + now apply within_append.
    + now apply within_assign_input.
  - unfold check_outputs. frame. now apply within_remove.
Qed.

Lemma run_from_within p : keeps (within f base) (run_from p v spec).
Proof.
  unfold run_from. apply keeps_sequence_then; [| apply keeps_read].
  apply Forall_passes_from, passes_within.
Qed.

Lemma add_plugin_within model :
  keeps (within f base) (add_plugin v model spec).
Proof.
  rewrite add_plugin_sequence.
  apply keeps_sequence_then; [apply passes_within | apply keeps_read].
Qed.

End Frame.

(** ** What [add_plugin] puts into a graph and what it takes out *)

Lemma within_ops v spec base p :
  incl introduced_ops base -> keeps (within gs.op base) (run_from p v spec).
Proof.
  intros H. apply run_from_within.
  - intros l n. reflexivity.
  - apply incl_tran with (m := introduced_ops); [| exact H].
    rewrite plugins_by_version.
    destruct (trt7 v); intros x Hx; cbn in Hx |- *; intuition auto.
  - apply H. cbn. auto 10.
  - intros kind n Hk _. apply H. cbn [gs.set_op gs.op].
    destruct Hk as [<- | [<- | []]]; cbn; auto 10.
Qed.


(** X11.  [add_plugin] invents nothing but what it creates.  Whether the run
    returns or raises, every node of the graph it leaves has the name, the
    attributes and the plugin flag of a node of the graph it was given, or
    of one of the six replacement nodes, or of the anchor constant; and its
    operator kind is one the graph had, or that of a node the script
    creates, or one of the two tags the rewrites substitute. *)
Theorem add_plugin_introduces (v : ascii) (model : string) (spec : ModelSpec)
  (s : Run) :
  let g' := graph (snd (add_plugin v model spec s)) in
  incl (map label (gs.node g'))
       (map label (gs.node (graph s)) ++ map label (created v spec)) /\
  incl (map gs.op (gs.node g'))
       (map gs.op (gs.node (graph s)) ++ introduced_ops).
Proof.
  cbv zeta. split.
  - apply (add_plugin_within label (fun l n => eq_refl)
             (map label (gs.node (graph s)) ++ map label (created v spec))
             v spec).
    + unfold created. rewrite map_app.
      apply incl_appr, incl_appl, incl_refl.
    + unfold created. rewrite map_app.
      apply in_or_app. right. apply in_or_app. right. left. reflexivity.
    + intros kind n _ H. exact H.
    + unfold within. apply incl_appl, incl_refl.
  - rewrite (add_plugin_cut AssertElimination).
    unfold run_until. cbn [passes_before add_plugin_passes pass_eqb
                           sequence_then].
    unfold bind at 1, ret.
    apply (within_ops v spec
             (map gs.op (gs.node (graph s)) ++ introduced_ops)
             AssertElimination).
    + apply incl_appr, incl_refl.
    + unfold within. apply incl_appl, incl_refl.
Qed.





















(** ** The ways [add_plugin] fails *)










(** ** The command line: lines 264-300 *)




(** ** What [add_plugin] reads: lines 148-151 and 198 *)

(** X15.  [add_plugin] reads four fields of the model specification, the
    class count, the two scales and the input order, and one bit of the
    TensorRT version, whether its first character is ['7'] or later.  The
    model name it is passed and the three file paths of the specification
    have no influence on the run: two calls that agree on what is read do
    the same to the same run. *)
Theorem add_plugin_reads (v v' : ascii) (model model' : string)
  (spec spec' : ModelSpec) (s : Run) :
  trt7 v = trt7 v' ->
  num_classes spec = num_classes spec' ->
  min_size spec = min_size spec' ->
  max_size spec = max_size spec' ->
  input_order spec = input_order spec' ->
  add_plugin v model spec s = add_plugin v' model' spec' s.
Proof.
  intros Hv Hc Hmin Hmax Hord.
  assert (E : plugins v spec = plugins v' spec').
  { unfold plugins, PriorBox, NMS, concat_box_loc, concat_box_conf.
    rewrite Hv, Hc, Hmin, Hmax, Hord. reflexivity. }
  unfold add_plugin, collapse. rewrite E. reflexivity.
Qed.

(** Two registry entries with the same hyper-parameters, under TensorRT 7
    and TensorRT 8. *)
Lemma add_plugin_reads_witness :
  add_plugin "7" "ssd_mobilenet_v1_coco" v1_coco (fresh ssd_core) =
  add_plugin "8" "ssd_inception_v2_coco"
    (mkSpec "/ssd/ssd_inception_v2_coco.pb" "/ssd/ssd_inception_v2_coco.uff"
            "/ssd/TRT_ssd_inception_v2_coco.bin" 91 0.2 0.95 [0; 2; 1]%Z)
    (fresh ssd_core).
Proof.
  apply add_plugin_reads; reflexivity.
Defined.

(** ** The collapsed namespaces: lines 226-241 *)





